(** * Guruji chat: relay (server.js) and client session controller (script.js)

    A shallow embedding of the two programs of the repository.

    - [Js]     : the fragment of JavaScript values and exceptions both
                 programs rely on (JSON payloads, truthiness, property
                 reads that throw on [null]/[undefined]).
    - [Relay]  : [DeepSeekService.generateResponse] and the
                 [POST /api/chat] handler of server.js.
    - [Client] : the [GurujiChat] class of script.js.
    - [JsFacts], [RelayFacts], [ClientFacts] : what is proved of them.
    - [Wire]   : the JSON that travels between the two programs.
    - [FormatFacts], [RelayEdges], [SessionFacts], [TrimFacts],
      [EndToEnd] : further properties, of [formatMessage], of the
      relay's edge cases, of the page as events arrive, of the
      submitted text, and of the two programs together.

    Texts are [string]s holding the UTF-8 bytes of the source literals.
    An [async] method is cut at its [await]: the part that runs up to
    the request, and the part that runs once the request has settled,
    which takes the settlement as an argument.  [Math.random()] and the
    clock are arguments as well. *)

From Stdlib Require Import String Ascii List ZArith QArith Qround Bool Lia.
From Stdlib Require Import DecimalString.
Import ListNotations.

Set Warnings "-register-all".

Open Scope string_scope.
Open Scope Z_scope.

(* ================================================================== *)
(** * JavaScript values                                                 *)
(* ================================================================== *)

Module Js.

(** A parsed JSON payload, plus [undefined] for an absent property.
    Numbers are rationals: JSON has neither NaN nor infinities. *)
Inductive JsVal : Type :=
| JUndefined
| JNull
| JBool (b : bool)
| JNum (q : Q)
| JStr (s : string)
| JArr (items : list JsVal)
| JObj (fields : list (string * JsVal)).

(** What a [throw] carries.  [AxiosError] is the rejection of
    [axios.post]: [error.response.status] when the upstream answered
    with a non-2xx status, and [error.code]. *)
Inductive JsError : Type :=
| TypeError
| Error (message : string)
| AxiosError (response_status : option Z) (code : option string).

(** Outcome of evaluating a block that may throw. *)
Inductive Completion (A : Type) : Type :=
| Normal (a : A)
| Throw (e : JsError).
Arguments Normal {A} a.
Arguments Throw {A} e.

Definition bind {A B} (c : Completion A) (k : A -> Completion B) : Completion B :=
  match c with
  | Normal a => k a
  | Throw e => Throw e
  end.

Notation "x <- c ;; k" := (bind c (fun x => k))
  (at level 61, c at next level, right associativity).

(** ToBoolean. *)
Definition truthy (v : JsVal) : bool :=
  match v with
  | JUndefined | JNull => false
  | JBool b => b
  | JNum q => negb (Qeq_bool q 0)
  | JStr s => negb (s =? "")%string
  | JArr _ | JObj _ => true
  end.

(** [Array.isArray]. *)
Definition isArray (v : JsVal) : bool :=
  match v with
  | JArr _ => true
  | _ => false
  end.

Definition nullish (v : JsVal) : bool :=
  match v with
  | JUndefined | JNull => true
  | _ => false
  end.

Fixpoint lookup (k : string) (fields : list (string * JsVal)) : JsVal :=
  match fields with
  | [] => JUndefined
  | (k', v) :: rest => if (k =? k')%string then v else lookup k rest
  end.

(** [v.k] for a property name [k] that no prototype defines (the
    programs read [messages], [temperature] and [role]): reading it
    from [null] or [undefined] throws, from an object it is the own
    property, from any other value it is [undefined]. *)
Definition get (v : JsVal) (k : string) : Completion JsVal :=
  match v with
  | JUndefined | JNull => Throw TypeError
  | JObj fields => Normal (lookup k fields)
  | _ => Normal JUndefined
  end.

(** Template-literal rendering of an integral number. *)
Definition string_of_Z (z : Z) : string :=
  NilZero.string_of_int (Z.to_int z).

(** [arr[Math.floor(r * arr.length)]] for a draw [r] of [Math.random()];
    an index outside the array reads [undefined]. *)
Definition random_pick {A} (arr : list A) (r : Q) : option A :=
  let i := Qfloor (r * inject_Z (Z.of_nat (length arr))) in
  if i <? 0 then None else nth_error arr (Z.to_nat i).

End Js.

(* ================================================================== *)
(** * The completion relay (server.js)                                  *)
(* ================================================================== *)

Module Relay.
Import Js.

(** ** The upstream call *)

(** Body of a 2xx upstream answer, as far as [generateResponse] reads
    it: [data.choices] (absent or falsy, or an array) and [data.usage].
    A choice stands for its [message.content]; it is [None] when the
    choice has no [message], so that reading the content throws. *)
Record UpstreamData : Type := {
  choices : option (list (option JsVal));
  usage : JsVal
}.

(** How [axios.post] settles: resolved with [response.data] ([None]
    when it is falsy), or rejected. *)
Inductive AxiosOutcome : Type :=
| AxiosResolved (data : option UpstreamData)
| AxiosRejected (e : JsError).

(** The value [generateResponse] returns. *)
Record ServiceResult : Type := {
  success : bool;
  content : JsVal;
  result_usage : JsVal;
  error : option string;
  code : option string
}.

Definition service_failure (err kind : string) : ServiceResult :=
  {| success := false; content := JUndefined; result_usage := JUndefined;
     error := Some err; code := Some kind |}.

(** The [try] block of [generateResponse] after the call settled. *)
Definition read_completion (outcome : AxiosOutcome) : Completion ServiceResult :=
  match outcome with
  | AxiosRejected e => Throw e
  | AxiosResolved (Some {| choices := Some (Some first :: _); usage := u |}) =>
      Normal {| success := true; content := first; result_usage := u;
                error := None; code := None |}
  | AxiosResolved (Some {| choices := Some (None :: _) |}) => Throw TypeError
  | AxiosResolved _ => Throw (Error "Invalid response structure from DeepSeek")
  end.

Definition error_response (e : JsError) : option Z :=
  match e with
  | AxiosError r _ => r
  | _ => None
  end.

Definition error_code (e : JsError) : option string :=
  match e with
  | AxiosError _ c => c
  | _ => None
  end.

(** [error.code === c] *)
Definition code_is (c : string) (code : option string) : bool :=
  match code with
  | Some c' => (c' =? c)%string
  | None => false
  end.

(** The [catch] block of [generateResponse]. *)
Definition handle_error (e : JsError) : ServiceResult :=
  match error_response e with
  | Some status =>
      if status =? 401 then
        service_failure "Invalid API key. Please check your DeepSeek API key."
                        "INVALID_API_KEY"
      else if status =? 429 then
        service_failure "Rate limit exceeded. Please try again later."
                        "RATE_LIMITED"
      else if (status =? 503) || (status =? 504) then
        service_failure "DeepSeek service is temporarily unavailable."
                        "SERVICE_UNAVAILABLE"
      else
        service_failure ("API error: " ++ string_of_Z status) "API_ERROR"
  | None =>
      if code_is "ECONNABORTED" (error_code e) then
        service_failure "Request timeout. The server took too long to respond."
                        "TIMEOUT"
      else
        service_failure "Network error. Could not reach DeepSeek API."
                        "NETWORK_ERROR"
  end.

Definition generateResponse (outcome : AxiosOutcome) : ServiceResult :=
  match read_completion outcome with
  | Normal r => r
  | Throw e => handle_error e
  end.

(** ** POST /api/chat *)

(** The JSON body the handler sends, with its HTTP status; a field
    that is [None] or [JUndefined] is not serialised. *)
Record ChatReply : Type := {
  http_status : Z;
  reply_success : bool;
  reply_content : JsVal;
  reply_usage : JsVal;
  reply_timestamp : option string;
  reply_error : option string;
  reply_code : option string;
  reply_fallback : option string
}.

Definition persona : JsVal :=
  JObj [("role", JStr "system");
        ("content", JStr "You are Guruji, a wise, compassionate spiritual teacher. You speak in calm, metaphorical language. Offer profound yet practical wisdom. Keep responses concise (2-4 sentences). Use Sanskrit terms occasionally. You embody patience and ancient wisdom.")].

Definition fallbackResponses : list string :=
  [ "ğŸŒ¿ The cosmic connection is momentarily interrupted. Please try again in a moment.";
    "ğŸ•‰ï¸ I feel the energy shifting. Let us wait a breath before continuing.";
    "ğŸ“œ The ancient scrolls are being redacted. The sage will return shortly.";
    "âœ¨ The stars need realignment. Guruji will be with you soon." ].

(** A message whose role is [system]. *)
Definition system_role (msg : JsVal) : bool :=
  match msg with
  | JObj fields =>
      match lookup "role" fields with
      | JStr s => (s =? "system")%string
      | _ => false
      end
  | _ => false
  end.

(** [msg => msg.role === 'system'] *)
Definition is_system (msg : JsVal) : Completion bool :=
  role <- get msg "role" ;;
  Normal match role with
         | JStr s => (s =? "system")%string
         | _ => false
         end.

(** [messages.some(msg => msg.role === 'system')] *)
Fixpoint some_system (messages : list JsVal) : Completion bool :=
  match messages with
  | [] => Normal false
  | msg :: rest =>
      b <- is_system msg ;;
      if b then Normal true else some_system rest
  end.

Definition invalid_request : ChatReply :=
  {| http_status := 400; reply_success := false;
     reply_content := JUndefined; reply_usage := JUndefined;
     reply_timestamp := None;
     reply_error := Some "Invalid request format. Expected messages array.";
     reply_code := Some "INVALID_REQUEST"; reply_fallback := None |}.

Definition server_error : ChatReply :=
  {| http_status := 500; reply_success := false;
     reply_content := JUndefined; reply_usage := JUndefined;
     reply_timestamp := None;
     reply_error := Some "Internal server error";
     reply_code := Some "SERVER_ERROR"; reply_fallback := None |}.

(** A call of [deepseek.generateResponse(chatMessages, temperature)]. *)
Record UpstreamCall : Type := {
  chatMessages : list JsVal;
  temperature : JsVal
}.

(** Lines 164-187: destructuring, validation and prompt injection.
    [inl] is a reply sent without calling upstream. *)
Definition prepare (body : JsVal) : Completion (ChatReply + UpstreamCall) :=
  messages <- get body "messages" ;;
  t <- get body "temperature" ;;
  let temperature := match t with JUndefined => JNum (7 # 10) | _ => t end in
  if negb (truthy messages) || negb (isArray messages) then
    Normal (inl invalid_request)
  else
    match messages with
    | JArr msgs =>
        hasSystemPrompt <- some_system msgs ;;
        let chatMessages := if hasSystemPrompt then msgs else persona :: msgs in
        Normal (inr {| chatMessages := chatMessages; temperature := temperature |})
    | _ => Throw TypeError (* [messages.some] is not a function *)
    end.

(** Lines 192-214: the reply built from the service result.  [rnd] is
    the draw of [Math.random()], [now] the ISO timestamp. *)
Definition respond (result : ServiceResult) (rnd : Q) (now : string) : ChatReply :=
  if success result then
    {| http_status := 200; reply_success := true;
       reply_content := content result; reply_usage := result_usage result;
       reply_timestamp := Some now;
       reply_error := None; reply_code := None; reply_fallback := None |}
  else
    {| http_status := 503; reply_success := false;
       reply_content := JUndefined; reply_usage := JUndefined;
       reply_timestamp := None;
       reply_error := error result; reply_code := code result;
       reply_fallback := random_pick fallbackResponses rnd |}.

(** The environment of one request: how the upstream call settles for
    the arguments it is given, the random draw and the clock. *)
Record Env : Type := {
  axios_post : UpstreamCall -> AxiosOutcome;
  random : Q;
  now : string
}.

(** The handler: the upstream call it made, if any, and its reply. *)
Definition api_chat (env : Env) (body : JsVal) : option UpstreamCall * ChatReply :=
  match prepare body with
  | Throw _ => (None, server_error)
  | Normal (inl reply) => (None, reply)
  | Normal (inr call) =>
      (Some call,
       respond (generateResponse (axios_post env call)) (random env) (now env))
  end.

(** ** GET /api/health *)

(** The JSON body of the health reply; it is sent with status 200. *)
Record HealthReply : Type := {
  health_status : string;
  health_timestamp : string;
  health_service : string;
  health_deepseek_api : string
}.

(** The handler; [apiKey] is [process.env.DEEPSEEK_API_KEY], a text
    when the variable is set. *)
Definition api_health (apiKey : option string) (now : string) : HealthReply :=
  {| health_status := "healthy";
     health_timestamp := now;
     health_service := "Guruji DeepSeek Backend";
     health_deepseek_api :=
       match apiKey with
       | Some key => if (key =? "")%string then "missing" else "configured"
       | None => "missing"
       end |}.

(** A 2xx body [generateResponse] can read a completion from. *)
Definition has_completion (data : option UpstreamData) : Prop :=
  exists first others u,
    data = Some {| choices := Some (Some first :: others); usage := u |}.

(** ** Concrete requests *)

(** A request environment used for concrete runs: the upstream answers
    429 and the random draw is 0. *)
Definition rate_limited_env : Env :=
  {| axios_post := fun _ => AxiosRejected (AxiosError (Some 429) None);
     random := 0;
     now := "2024-01-01T00:00:00.000Z" |}.

Definition user_message (text : string) : JsVal :=
  JObj [("role", JStr "user"); ("content", JStr text)].

Definition system_message (text : string) : JsVal :=
  JObj [("role", JStr "system"); ("content", JStr text)].

Definition request (messages : list JsVal) : JsVal :=
  JObj [("messages", JArr messages); ("sessionId", JStr "guruji_1_abc")].

(** A list with one system-role message in all, standing first. *)
Definition one_leading_system (msgs : list JsVal) : Prop :=
  length (filter system_role msgs) = 1%nat /\
  exists first rest, msgs = first :: rest /\ system_role first = true.

(** The messages handed to the upstream call, when one was made. *)
Definition sent_upstream (env : Env) (body : JsVal) : option (list JsVal) :=
  option_map chatMessages (fst (api_chat env body)).

End Relay.

(* ================================================================== *)
(** * The client session controller (script.js)                         *)
(* ================================================================== *)

Module Client.
Import Js.

(** ** [String.prototype.trim] on UTF-8 text *)

Definition byte (a : ascii) : N := N_of_ascii a.

(** The ECMAScript WhiteSpace and LineTerminator code points, by the
    length of their UTF-8 encoding: TAB LF VT FF CR SP; *)
Definition ws1 (a : ascii) : bool :=
  ((byte a =? 0x09) || (byte a =? 0x0A) || (byte a =? 0x0B) ||
   (byte a =? 0x0C) || (byte a =? 0x0D) || (byte a =? 0x20))%N.

(** U+00A0; *)
Definition ws2 (a b : ascii) : bool :=
  ((byte a =? 0xC2) && (byte b =? 0xA0))%N.

(** U+1680, U+2000..U+200A, U+2028, U+2029, U+202F, U+205F, U+3000
    and U+FEFF. *)
Definition ws3 (a b c : ascii) : bool :=
  (((byte a =? 0xE1) && (byte b =? 0x9A) && (byte c =? 0x80)) ||
   ((byte a =? 0xE2) && (byte b =? 0x80) &&
    (((0x80 <=? byte c) && (byte c <=? 0x8A)) ||
     (byte c =? 0xA8) || (byte c =? 0xA9) || (byte c =? 0xAF))) ||
   ((byte a =? 0xE2) && (byte b =? 0x81) && (byte c =? 0x9F)) ||
   ((byte a =? 0xE3) && (byte b =? 0x80) && (byte c =? 0x80)) ||
   ((byte a =? 0xEF) && (byte b =? 0xBB) && (byte c =? 0xBF)))%N.

Fixpoint trimStart_bytes (s : list ascii) : list ascii :=
  match s with
  | [] => []
  | a :: r1 =>
      if ws1 a then trimStart_bytes r1
      else match r1 with
           | [] => s
           | b :: r2 =>
               if ws2 a b then trimStart_bytes r2
               else match r2 with
                    | [] => s
                    | c :: r3 => if ws3 a b c then trimStart_bytes r3 else s
                    end
           end
  end.

(** The same scan from the last byte backwards, on the reversed text. *)
Fixpoint trimEnd_reversed (s : list ascii) : list ascii :=
  match s with
  | [] => []
  | c :: r1 =>
      if ws1 c then trimEnd_reversed r1
      else match r1 with
           | [] => s
           | b :: r2 =>
               if ws2 b c then trimEnd_reversed r2
               else match r2 with
                    | [] => s
                    | a :: r3 => if ws3 a b c then trimEnd_reversed r3 else s
                    end
           end
  end.

Definition trim (s : string) : string :=
  string_of_list_ascii
    (rev (trimEnd_reversed (rev (trimStart_bytes (list_ascii_of_string s))))).

(** A text made of white space and line terminators only. *)
Inductive WhitespaceOnly : list ascii -> Prop :=
| ws_empty : WhitespaceOnly []
| ws_one a s : ws1 a = true -> WhitespaceOnly s -> WhitespaceOnly (a :: s)
| ws_two a b s : ws2 a b = true -> WhitespaceOnly s -> WhitespaceOnly (a :: b :: s)
| ws_three a b c s :
    ws3 a b c = true -> WhitespaceOnly s -> WhitespaceOnly (a :: b :: c :: s).

(** ** [Array.prototype.slice(start)] *)

Definition slice {A} (start : Z) (l : list A) : list A :=
  let len := Z.of_nat (length l) in
  let k := if start <? 0 then Z.max (len + start) 0 else Z.min start len in
  skipn (Z.to_nat k) l.

(** ** The session object *)

Record Message : Type := {
  role : string;
  content : string
}.

(** A [div.message] appended to the chat window. *)
Record Bubble : Type := {
  bubble_text : string;
  bubble_isUser : bool
}.

(** The fields of [GurujiChat] and the part of the DOM it drives; the
    elements the constructor looks up are taken to exist. *)
Record GurujiChat : Type := {
  chatWindow : list Bubble;
  userInput_value : string;
  userInput_disabled : bool;
  sendBtn_disabled : bool;
  typingArea_hidden : bool;
  statusIndicator_className : string;
  statusText_textContent : string;
  isProcessing : bool;
  sessionId : string;
  messageHistory : list Message;
  reconnectAttempts : Z;
  maxReconnectAttempts : Z
}.

Definition set_chatWindow v (g : GurujiChat) : GurujiChat :=
  {| chatWindow := v; userInput_value := userInput_value g;
     userInput_disabled := userInput_disabled g;
     sendBtn_disabled := sendBtn_disabled g;
     typingArea_hidden := typingArea_hidden g;
     statusIndicator_className := statusIndicator_className g;
     statusText_textContent := statusText_textContent g;
     isProcessing := isProcessing g; sessionId := sessionId g;
     messageHistory := messageHistory g;
     reconnectAttempts := reconnectAttempts g;
     maxReconnectAttempts := maxReconnectAttempts g |}.

Definition set_userInput_value v (g : GurujiChat) : GurujiChat :=
  {| chatWindow := chatWindow g; userInput_value := v;
     userInput_disabled := userInput_disabled g;
     sendBtn_disabled := sendBtn_disabled g;
     typingArea_hidden := typingArea_hidden g;
     statusIndicator_className := statusIndicator_className g;
     statusText_textContent := statusText_textContent g;
     isProcessing := isProcessing g; sessionId := sessionId g;
     messageHistory := messageHistory g;
     reconnectAttempts := reconnectAttempts g;
     maxReconnectAttempts := maxReconnectAttempts g |}.

(** [this.sendBtn.disabled = v; this.userInput.disabled = v;] *)
Definition set_disabled v (g : GurujiChat) : GurujiChat :=
  {| chatWindow := chatWindow g; userInput_value := userInput_value g;
     userInput_disabled := v; sendBtn_disabled := v;
     typingArea_hidden := typingArea_hidden g;
     statusIndicator_className := statusIndicator_className g;
     statusText_textContent := statusText_textContent g;
     isProcessing := isProcessing g; sessionId := sessionId g;
     messageHistory := messageHistory g;
     reconnectAttempts := reconnectAttempts g;
     maxReconnectAttempts := maxReconnectAttempts g |}.

Definition set_typingArea_hidden v (g : GurujiChat) : GurujiChat :=
  {| chatWindow := chatWindow g; userInput_value := userInput_value g;
     userInput_disabled := userInput_disabled g;
     sendBtn_disabled := sendBtn_disabled g;
     typingArea_hidden := v;
     statusIndicator_className := statusIndicator_className g;
     statusText_textContent := statusText_textContent g;
     isProcessing := isProcessing g; sessionId := sessionId g;
     messageHistory := messageHistory g;
     reconnectAttempts := reconnectAttempts g;
     maxReconnectAttempts := maxReconnectAttempts g |}.

Definition set_isProcessing v (g : GurujiChat) : GurujiChat :=
  {| chatWindow := chatWindow g; userInput_value := userInput_value g;
     userInput_disabled := userInput_disabled g;
     sendBtn_disabled := sendBtn_disabled g;
     typingArea_hidden := typingArea_hidden g;
     statusIndicator_className := statusIndicator_className g;
     statusText_textContent := statusText_textContent g;
     isProcessing := v; sessionId := sessionId g;
     messageHistory := messageHistory g;
     reconnectAttempts := reconnectAttempts g;
     maxReconnectAttempts := maxReconnectAttempts g |}.

Definition set_messageHistory v (g : GurujiChat) : GurujiChat :=
  {| chatWindow := chatWindow g; userInput_value := userInput_value g;
     userInput_disabled := userInput_disabled g;
     sendBtn_disabled := sendBtn_disabled g;
     typingArea_hidden := typingArea_hidden g;
     statusIndicator_className := statusIndicator_className g;
     statusText_textContent := statusText_textContent g;
     isProcessing := isProcessing g; sessionId := sessionId g;
     messageHistory := v;
     reconnectAttempts := reconnectAttempts g;
     maxReconnectAttempts := maxReconnectAttempts g |}.

Definition set_reconnectAttempts v (g : GurujiChat) : GurujiChat :=
  {| chatWindow := chatWindow g; userInput_value := userInput_value g;
     userInput_disabled := userInput_disabled g;
     sendBtn_disabled := sendBtn_disabled g;
     typingArea_hidden := typingArea_hidden g;
     statusIndicator_className := statusIndicator_className g;
     statusText_textContent := statusText_textContent g;
     isProcessing := isProcessing g; sessionId := sessionId g;
     messageHistory := messageHistory g;
     reconnectAttempts := v;
     maxReconnectAttempts := maxReconnectAttempts g |}.

(** [this.messageHistory.push(m)] *)
Definition push (m : Message) (g : GurujiChat) : GurujiChat :=
  set_messageHistory (messageHistory g ++ [m]) g.

(** The state the constructor builds, before [init] runs. *)
Definition constructed (session : string) : GurujiChat :=
  {| chatWindow := []; userInput_value := "";
     userInput_disabled := false; sendBtn_disabled := false;
     typingArea_hidden := true;
     statusIndicator_className := "status-indicator";
     statusText_textContent := "";
     isProcessing := false; sessionId := session;
     messageHistory := [];
     reconnectAttempts := 0; maxReconnectAttempts := 3 |}.

(** ** Rendering *)

Definition showTypingIndicator : GurujiChat -> GurujiChat :=
  set_typingArea_hidden false.

Definition hideTypingIndicator : GurujiChat -> GurujiChat :=
  set_typingArea_hidden true.

(** [addMessageToChat] on a text: [formatMessage] keeps the text (URLs
    become anchors carrying the same characters) and the new bubble is
    appended to the chat window. *)
Definition render (text : string) (isUser : bool) (g : GurujiChat) : GurujiChat :=
  set_chatWindow
    (chatWindow g ++ [{| bubble_text := text; bubble_isUser := isUser |}]) g.

(** [addMessageToChat(content, isUser)], [None] standing for an
    [undefined] content: [formatMessage] returns it as it is and
    [bubbleDiv.appendChild(undefined)] throws before anything is
    attached to the chat window. *)
Definition addMessageToChat (content : option string) (isUser : bool)
    (g : GurujiChat) : Completion GurujiChat :=
  match content with
  | Some text => Normal (render text isUser g)
  | None => Throw TypeError
  end.

(** ** Connectivity *)

(** How the probe [fetch('/api/health')] followed by [response.json()]
    ends: one of the two promises rejects (or the body is [null], so
    that reading [data.status] throws), or there is a body; [status] is
    [data.status] when that is a string. *)
Inductive ProbeOutcome : Type :=
| ProbeRejected
| ProbeAnswered (ok : bool) (status : option string).

Definition updateConnectionStatus (status message : string)
    (g : GurujiChat) : GurujiChat :=
  {| chatWindow := chatWindow g; userInput_value := userInput_value g;
     userInput_disabled := userInput_disabled g;
     sendBtn_disabled := sendBtn_disabled g;
     typingArea_hidden := typingArea_hidden g;
     statusIndicator_className := "status-indicator " ++ status;
     statusText_textContent := message;
     isProcessing := isProcessing g; sessionId := sessionId g;
     messageHistory := messageHistory g;
     reconnectAttempts := reconnectAttempts g;
     maxReconnectAttempts := maxReconnectAttempts g |}.

(** [response.ok && data.status === 'healthy'] *)
Definition probe_healthy (p : ProbeOutcome) : bool :=
  match p with
  | ProbeAnswered ok (Some status) => ok && (status =? "healthy")%string
  | _ => false
  end.

(** One run of [checkConnection]: the new state and, when
    [setTimeout(() => this.checkConnection(), 2000)] was called, the
    delay of the timer that will run it again. *)
Definition checkConnection (g : GurujiChat) (p : ProbeOutcome)
    : GurujiChat * option Z :=
  let g := updateConnectionStatus "connecting"
             "Connecting to Guruji's sanctuary..." g in
  if probe_healthy p then
    let g := updateConnectionStatus "connected" "Connected to DeepSeek wisdom" g in
    (set_reconnectAttempts 0 g, None)
  else
    let g := set_reconnectAttempts (reconnectAttempts g + 1) g in
    if reconnectAttempts g <=? maxReconnectAttempts g then
      (updateConnectionStatus "connecting"
         ("Reconnecting... Attempt " ++ string_of_Z (reconnectAttempts g)
          ++ "/" ++ string_of_Z (maxReconnectAttempts g)) g,
       Some 2000)
    else
      (updateConnectionStatus "error" "Cannot reach Guruji. Please refresh." g,
       None).

(** The probes the controller issues: the one of [init], then one per
    timer that fires.  [probes] is what the network would answer to
    each; the result is the final state and the answers left unused
    because no timer was pending any more. *)
Fixpoint connect (g : GurujiChat) (probes : list ProbeOutcome)
    : GurujiChat * list ProbeOutcome :=
  match probes with
  | [] => (g, [])
  | p :: rest =>
      match checkConnection g p with
      | (g', Some _) => connect g' rest
      | (g', None) => (g', rest)
      end
  end.

(** [addWelcomeMessage] *)
Definition addWelcomeMessage (g : GurujiChat) : GurujiChat :=
  let welcome := "🕉️ Namaste. I am Guruji, a humble channel of DeepSeek wisdom. What question stirs in your heart today?" in
  push {| role := "assistant"; content := welcome |} (render welcome false g).

(** ** Submitting a message *)

(** The body of the [POST /api/chat] request. *)
Record ChatRequest : Type := {
  request_messages : list Message;
  request_temperature : Q;
  request_sessionId : string
}.

(** [sendToBackend] up to the call of [fetch]. *)
Definition sendToBackend_request (g : GurujiChat) : ChatRequest :=
  let recentMessages := slice (-10) (messageHistory g) in
  {| request_messages := recentMessages;
     request_temperature := 7 # 10;
     request_sessionId := sessionId g |}.

(** [handleUserMessage] up to its first suspension, the [fetch] inside
    [sendToBackend]: the new state and the request that left, if one
    did. *)
Definition handleUserMessage_begin (g : GurujiChat)
    : GurujiChat * option ChatRequest :=
  let message := trim (userInput_value g) in
  if (message =? "")%string || isProcessing g then (g, None)
  else
    let g := set_isProcessing true g in
    let g := set_disabled true g in
    let g := render message true g in
    let g := push {| role := "user"; content := message |} g in
    let g := set_userInput_value "" g in
    let g := showTypingIndicator g in
    (g, Some (sendToBackend_request g)).

(** The relay's JSON answer as the client reads it: [success] by its
    truthiness, the other fields when present (they are texts). *)
Record ResponseData : Type := {
  success : bool;
  data_content : option string;
  data_error : option string;
  data_fallback : option string
}.

(** The body of the answer.  A JSON value that is neither [null] nor
    an object (a number, a text, an array) reads as an object without
    any of the fields. *)
Inductive ResponseBody : Type :=
| NotJson                      (* [response.json()] rejects *)
| JsonNull                     (* the body is [null] *)
| JsonObject (data : ResponseData).

(** How the [fetch] of [sendToBackend] ends. *)
Inductive FetchOutcome : Type :=
| FetchRejected                (* the relay could not be reached *)
| FetchAnswered (ok : bool) (body : ResponseBody).

(** Truthiness of an optional text. *)
Definition present (t : option string) : bool :=
  match t with
  | Some s => negb (s =? "")%string
  | None => false
  end.

(** [sendToBackend] from the settlement of [fetch] on; [None] is a
    returned [null]. *)
Definition sendToBackend_settle (outcome : FetchOutcome)
    : Completion (option ResponseData) :=
  match outcome with
  | FetchRejected => Throw TypeError
  | FetchAnswered _ NotJson => Throw (Error "SyntaxError")
  | FetchAnswered false JsonNull => Throw TypeError
  | FetchAnswered false (JsonObject data) =>
      if present (data_fallback data) then
        Normal (Some {| success := true; data_content := data_fallback data;
                        data_error := None; data_fallback := None |})
      else
        Throw (Error match data_error data with
                     | Some e => if (e =? "")%string then "Backend error" else e
                     | None => "Backend error"
                     end)
  | FetchAnswered true JsonNull => Normal None
  | FetchAnswered true (JsonObject data) => Normal (Some data)
  end.

Definition errorMessages : list string :=
  [ "🌱 The cosmic winds are turbulent. Guruji will return when the skies clear.";
    "📜 The ancient scrolls are momentarily hidden. Please try again.";
    "🕉️ The energy needs to settle. Ask again in a few breaths.";
    "✨ The stars need realignment. Your patience brings wisdom." ].

(** [handleAPIError(error)]; [rnd] is the draw of [Math.random()]. *)
Definition handleAPIError (error : ResponseData) (rnd : Q) (g : GurujiChat)
    : Completion GurujiChat :=
  let fallbackMessage :=
    if present (data_fallback error) then data_fallback error
    else random_pick errorMessages rnd in
  g <- addMessageToChat fallbackMessage false g ;;
  Normal match fallbackMessage with
         | Some text => push {| role := "assistant"; content := text |} g
         | None => g
         end.

Definition networkErrorMessage : string :=
  "🔮 The connection to Guruji's realm is unstable. Please check your network.".

(** [handleNetworkError()] *)
Definition handleNetworkError (g : GurujiChat) : GurujiChat :=
  let message := networkErrorMessage in
  push {| role := "assistant"; content := message |} (render message false g).

(** The [try] block of [handleUserMessage] after [sendToBackend]
    settled.  A throw leaves the state as it was when it happened. *)
Definition handleUserMessage_try (outcome : FetchOutcome) (rnd : Q)
    (g : GurujiChat) : GurujiChat * option JsError :=
  match sendToBackend_settle outcome with
  | Throw e => (g, Some e)
  | Normal response =>
      let g := hideTypingIndicator g in
      match response with
      | None => (g, Some TypeError)       (* [response.success] of [null] *)
      | Some response =>
          if success response then
            match addMessageToChat (data_content response) false g with
            | Throw e => (g, Some e)
            | Normal g' =>
                (match data_content response with
                 | Some text => push {| role := "assistant"; content := text |} g'
                 | None => g'
                 end, None)
            end
          else
            match handleAPIError response rnd g with
            | Throw e => (g, Some e)
            | Normal g' => (g', None)
            end
      end
  end.

(** [handleUserMessage] from the settlement of the request to its end:
    [try], [catch] and [finally]. *)
Definition handleUserMessage_resume (outcome : FetchOutcome) (rnd : Q)
    (g : GurujiChat) : GurujiChat :=
  let g :=
    match handleUserMessage_try outcome rnd g with
    | (g, None) => g
    | (g, Some _) => handleNetworkError (hideTypingIndicator g)
    end in
  let g := set_isProcessing false g in
  set_disabled false g.

(** ** [formatMessage] *)

(** A white-space code point begins at the head of the text: where
    [\s] matches and [[^\s]] does not. *)
Definition starts_ws (s : list ascii) : bool :=
  match s with
  | [] => false
  | a :: r1 =>
      ws1 a ||
      match r1 with
      | [] => false
      | b :: r2 =>
          ws2 a b ||
          match r2 with
          | [] => false
          | c :: _ => ws3 a b c
          end
      end
  end.

(** [s] begins with the literal [p]: what follows it. *)
Fixpoint after (p s : list ascii) : option (list ascii) :=
  match p, s with
  | [], _ => Some s
  | _ :: _, [] => None
  | x :: p', y :: s' => if Ascii.eqb x y then after p' s' else None
  end.

(** [:\/\/[^\s]+] matches at the head of the text. *)
Definition url_tail (s : list ascii) : bool :=
  match after (list_ascii_of_string "://") s with
  | Some [] => false
  | Some rest => negb (starts_ws rest)
  | None => false
  end.

(** [/(https?:\/\/[^\s]+)/] matches at the head of the text: [http],
    then the optional [s] taken first and given back if the rest fails. *)
Definition url_at (s : list ascii) : bool :=
  match after (list_ascii_of_string "http") s with
  | Some rest =>
      match after (list_ascii_of_string "s") rest with
      | Some rest' => url_tail rest' || url_tail rest
      | None => url_tail rest
      end
  | None => false
  end.

(** [urlRegex.test(text)], and the truth of [part.match(urlRegex)]:
    the pattern matches somewhere. *)
Fixpoint url_test (s : list ascii) : bool :=
  url_at s ||
  match s with
  | [] => false
  | _ :: rest => url_test rest
  end.

(** [text.split(urlRegex)], one byte at a time.  Outside a match
    ([inUrl] false) the bytes read since the last match are in [acc],
    latest first; where the pattern matches, they are closed as a part
    and the match opens.  Inside a match the bytes of the match are in
    [acc]; the greedy [[^\s]+] runs up to the next white space or the
    end, where the captured match is closed as a part.  The text after
    the last match is the last part, empty when the match ends the
    text. *)
Fixpoint split_scan (inUrl : bool) (acc s : list ascii) : list (list ascii) :=
  match s with
  | [] => if inUrl then [rev acc; []] else [rev acc]
  | a :: rest =>
      if inUrl then
        if starts_ws s then rev acc :: split_scan false [a] rest
        else split_scan true (a :: acc) rest
      else
        if url_at s then rev acc :: split_scan true [a] rest
        else split_scan false (a :: acc) rest
  end.

Definition split_urlRegex (text : string) : list string :=
  map string_of_list_ascii (split_scan false [] (list_ascii_of_string text)).

(** The [a] element built for a URL. *)
Record Anchor : Type := {
  href : string;
  target : string;
  rel : string;
  textContent : string;
  style_color : string;
  style_textDecoration : string
}.

Inductive Node : Type :=
| TextNode (data : string)
| Link (a : Anchor).

(** What [formatMessage] returns: its argument, or a document
    fragment. *)
Inductive Formatted : Type :=
| Unformatted (text : option string)
| Fragment (children : list Node).

Definition format_part (part : string) : Node :=
  if url_test (list_ascii_of_string part) then
    Link {| href := part; target := "_blank"; rel := "noopener noreferrer";
            textContent := part;
            style_color := "#a0eac0"; style_textDecoration := "underline" |}
  else TextNode part.

(** [formatMessage(text)], [None] standing for [undefined]. *)
Definition formatMessage (text : option string) : Formatted :=
  match text with
  | None => Unformatted None
  | Some t =>
      if (t =? "")%string then Unformatted text
      else if url_test (list_ascii_of_string t) then
        Fragment (map format_part (split_urlRegex t))
      else Unformatted text
  end.

(** The characters a node displays. *)
Definition node_text (n : Node) : string :=
  match n with
  | TextNode data => data
  | Link a => textContent a
  end.

(** What a bubble displays for a formatted content. *)
Definition displayed (f : Formatted) : string :=
  match f with
  | Unformatted (Some text) => text
  | Unformatted None => ""
  | Fragment children => String.concat "" (map node_text children)
  end.

(** No match of the pattern begins inside [t] when [context] follows. *)
Definition no_url_start (t context : list ascii) : Prop :=
  forall t1 t2, t = (t1 ++ t2)%list -> t2 <> [] ->
                url_at (t2 ++ context) = false.

(** No white space begins inside [u] when [context] follows. *)
Definition no_ws_start (u context : list ascii) : Prop :=
  forall u1 u2, u = (u1 ++ u2)%list -> u2 <> [] ->
                starts_ws (u2 ++ context) = false.

(** The parts [split] is specified to return for the pattern: the
    matches taken leftmost and longest, each preceded by the text
    since the previous one, and the text after the last match. *)
Inductive SplitAtUrls : list ascii -> list (list ascii) -> Prop :=
| split_last t :
    no_url_start t [] -> SplitAtUrls t [t]
| split_match t u rest parts :
    no_url_start t (u ++ rest) ->
    url_at (u ++ rest) = true ->
    no_ws_start u rest ->
    rest = [] \/ starts_ws rest = true ->
    SplitAtUrls rest parts ->
    SplitAtUrls (t ++ u ++ rest) (t :: u :: parts).

(** A whole URL: a scheme, then at least one character, none of them
    white space. *)
Definition is_url (u : list ascii) : Prop :=
  exists scheme x,
    (scheme = list_ascii_of_string "http://" \/
     scheme = list_ascii_of_string "https://") /\
    u = (scheme ++ x)%list /\ x <> [] /\
    forall u1 u2, u = (u1 ++ u2)%list -> u2 <> [] -> starts_ws u2 = false.

(** Text nodes and anchors in turn, from a text node to a text node. *)
Inductive Alternating : list Node -> Prop :=
| alternating_last data : Alternating [TextNode data]
| alternating_link data a rest :
    Alternating rest -> Alternating (TextNode data :: Link a :: rest).

(** The bytes a white-space code point can begin with. *)
Definition ws_lead (a : ascii) : bool :=
  (ws1 a || (byte a =? 0xC2) || (byte a =? 0xE1) || (byte a =? 0xE2) ||
   (byte a =? 0xE3) || (byte a =? 0xEF))%N.

(** The two spellings of the scheme the pattern accepts. *)
Definition schemes : list (list ascii) :=
  [list_ascii_of_string "http://"; list_ascii_of_string "https://"].

(** An anchor [formatMessage] may build. *)
Definition safe_link (a : Anchor) : Prop :=
  is_url (list_ascii_of_string (href a)) /\
  textContent a = href a /\
  target a = "_blank" /\ rel a = "noopener noreferrer".

(** The text holds [http://] or [https://] followed by a character
    that is not white space. *)
Definition contains_url (text : string) : Prop :=
  exists before scheme x,
    (scheme = list_ascii_of_string "http://" \/
     scheme = list_ascii_of_string "https://") /\
    list_ascii_of_string text = (before ++ scheme ++ x)%list /\
    x <> [] /\ starts_ws x = false.

(** ** The listeners and the life of the page *)

(** The [keypress] listener of the input. *)
Definition keypress (key : string) (g : GurujiChat)
    : GurujiChat * option ChatRequest :=
  if (key =? "Enter")%string && negb (isProcessing g)
  then handleUserMessage_begin g
  else (g, None).

(** The body of the [POST /api/conversation/end] request. *)
Record ConversationEnd : Type := {
  end_messages : list Message;
  end_sessionId : string;
  end_timestamp : string
}.

(** [logConversationEnd()], run when the page unloads: the request it
    sends, if it sends one.  Whether the request succeeds changes
    nothing. *)
Definition logConversationEnd (now : string) (g : GurujiChat)
    : option ConversationEnd :=
  if (1 <? length (messageHistory g))%nat then
    Some {| end_messages := messageHistory g;
            end_sessionId := sessionId g;
            end_timestamp := now |}
  else None.

(** What can happen to the page once the constructor has run. *)
Inductive Event : Type :=
| ConnectionChecked (p : ProbeOutcome)   (* [checkConnection] ran, from [init] or a timer *)
| Welcomed                               (* [init] reached [addWelcomeMessage] *)
| Typed (text : string)                  (* the user edited the input *)
| KeyPressed (key : string)
| SendClicked
| RequestSettled (outcome : FetchOutcome) (rnd : Q).

(** The state after an event.  A disabled input cannot be edited, and
    a request settles only if one is in flight, which is when
    [isProcessing] is set. *)
Definition fire (e : Event) (g : GurujiChat) : GurujiChat :=
  match e with
  | ConnectionChecked p => fst (checkConnection g p)
  | Welcomed => addWelcomeMessage g
  | Typed text => if userInput_disabled g then g else set_userInput_value text g
  | KeyPressed key => fst (keypress key g)
  | SendClicked => fst (handleUserMessage_begin g)
  | RequestSettled outcome rnd =>
      if isProcessing g then handleUserMessage_resume outcome rnd g else g
  end.

(** The state after a sequence of events, earliest first. *)
Definition run (events : list Event) (g : GurujiChat) : GurujiChat :=
  fold_left (fun g e => fire e g) events g.

(** The chat request an event sends, if it sends one. *)
Definition sent_by (e : Event) (g : GurujiChat) : option ChatRequest :=
  match e with
  | KeyPressed key => snd (keypress key g)
  | SendClicked => snd (handleUserMessage_begin g)
  | _ => None
  end.

(** The chat requests that left during the events, earliest first. *)
Fixpoint requests (events : list Event) (g : GurujiChat) : list ChatRequest :=
  match events with
  | [] => []
  | e :: rest =>
      match sent_by e g with
      | Some request => request :: requests rest (fire e g)
      | None => requests rest (fire e g)
      end
  end.

(** A bubble and a message that show the same thing. *)
Definition mirrors (b : Bubble) (m : Message) : Prop :=
  bubble_text b = content m /\
  bubble_isUser b = (role m =? "user")%string.

(** The controls are disabled, and the typing indicator shown, exactly
    while a submission is in flight. *)
Definition controls_follow_busy (g : GurujiChat) : Prop :=
  sendBtn_disabled g = isProcessing g /\
  userInput_disabled g = isProcessing g /\
  typingArea_hidden g = negb (isProcessing g).

(** The state a settled request leaves, whatever was shown. *)
Definition settled (text : string) (g : GurujiChat) : GurujiChat :=
  set_disabled false
    (set_isProcessing false
       (push {| role := "assistant"; content := text |}
          (render text false (hideTypingIndicator g)))).

(** A role the client gives to a message. *)
Definition client_role (m : Message) : Prop :=
  role m = "user" \/ role m = "assistant".

(** The event is the settlement of a chat request. *)
Definition is_settlement (e : Event) : bool :=
  match e with
  | RequestSettled _ _ => true
  | _ => false
  end.

(** The event is a run of [checkConnection]. *)
Definition is_connection_check (e : Event) : bool :=
  match e with
  | ConnectionChecked _ => true
  | _ => false
  end.

(** What events add to the chat window and to the history. *)
Inductive Growth (g g' : GurujiChat) : Prop :=
| grown (bubbles : list Bubble) (messages : list Message) :
    chatWindow g' = (chatWindow g ++ bubbles)%list ->
    messageHistory g' = (messageHistory g ++ messages)%list ->
    Forall2 mirrors bubbles messages ->
    Forall client_role messages ->
    sessionId g' = sessionId g ->
    Growth g g'.

(** What every chat request of a session looks like. *)
Definition well_formed_request (session : string) (r : ChatRequest) : Prop :=
  (length (request_messages r) <= 10)%nat /\
  (exists earlier text,
     request_messages r = (earlier ++ [{| role := "user"; content := text |}])%list /\
     text <> "") /\
  Forall client_role (request_messages r) /\
  request_sessionId r = session /\
  request_temperature r = 7 # 10.

(** White space ends the text: the test of [starts_ws], from the last
    byte backwards. *)
Definition ends_ws (s : list ascii) : bool :=
  match rev s with
  | [] => false
  | c :: r1 =>
      ws1 c ||
      match r1 with
      | [] => false
      | b :: r2 =>
          ws2 b c ||
          match r2 with
          | [] => false
          | a :: _ => ws3 a b c
          end
      end
  end.

(** ** Observations and concrete sessions *)

(** Between [before] and [after], [text] was rendered as a bubble of
    the assistant and pushed on the history as an assistant message. *)
Definition shows (text : string) (before after : GurujiChat) : Prop :=
  chatWindow after =
    (chatWindow before ++ [{| bubble_text := text; bubble_isUser := false |}])%list /\
  messageHistory after =
    (messageHistory before ++ [{| role := "assistant"; content := text |}])%list.

Definition connection_state (g : GurujiChat) : string :=
  statusIndicator_className g.

(** A text with nothing but white space. *)
Definition blank (text : string) : Prop :=
  WhitespaceOnly (list_ascii_of_string text).

(** The page after [init], the user having typed a question. *)
Definition asking (text : string) : GurujiChat :=
  set_userInput_value text (addWelcomeMessage (constructed "guruji_1_abc")).

(** The same with a history of [n] earlier exchanges of one message. *)
Fixpoint chatted (n : nat) (g : GurujiChat) : GurujiChat :=
  match n with
  | O => g
  | S n => push {| role := "user"; content := "Om" |} (chatted n g)
  end.

(** The relay's SERVER_ERROR reply (status 500) as the client reads it. *)
Definition server_error_answer : FetchOutcome :=
  FetchAnswered false
    (JsonObject {| success := false; data_content := None;
                   data_error := Some "Internal server error";
                   data_fallback := None |}).

End Client.

(* ================================================================== *)
(** * Between the client and the relay                                  *)
(* ================================================================== *)

Module Wire.
Import Js.

(** [JSON.stringify] of the request body of [sendToBackend], as
    [express.json()] hands it to the handler. *)
Definition message_json (m : Client.Message) : JsVal :=
  JObj [("role", JStr (Client.role m)); ("content", JStr (Client.content m))].

Definition request_json (r : Client.ChatRequest) : JsVal :=
  JObj [("messages", JArr (map message_json (Client.request_messages r)));
        ("temperature", JNum (Client.request_temperature r));
        ("sessionId", JStr (Client.request_sessionId r))].

(** A content the relay sends, as the client reads it: a text, or
    nothing when the field is absent or [null].  Other values are not
    texts and have no reading here. *)
Definition read_content (v : JsVal) : option (option string) :=
  match v with
  | JStr s => Some (Some s)
  | JUndefined | JNull => Some None
  | _ => None
  end.

(** The relay's reply as the [fetch] of [sendToBackend] delivers it:
    [response.ok] is a status from 200 to 299. *)
Definition read_reply (r : Relay.ChatReply) : option Client.FetchOutcome :=
  match read_content (Relay.reply_content r) with
  | Some c =>
      Some (Client.FetchAnswered
              ((200 <=? Relay.http_status r) && (Relay.http_status r <=? 299))
              (Client.JsonObject
                 {| Client.success := Relay.reply_success r;
                    Client.data_content := c;
                    Client.data_error := Relay.reply_error r;
                    Client.data_fallback := Relay.reply_fallback r |}))
  | None => None
  end.

(** The health reply as the probe of [checkConnection] reads it. *)
Definition read_health (r : Relay.HealthReply) : Client.ProbeOutcome :=
  Client.ProbeAnswered true (Some (Relay.health_status r)).

(** The reply the relay gives to a request, as the client receives it. *)
Definition relayed (env : Relay.Env) (r : Client.ChatRequest) : option Client.FetchOutcome :=
  read_reply (snd (Relay.api_chat env (request_json r))).

End Wire.

(* ================================================================== *)
(** * Properties of the JavaScript fragment                             *)
(* ================================================================== *)

Module JsFacts.
Import Js.

(** A draw of [Math.random()] selects an element of a non-empty array. *)
Lemma random_pick_in {A} (arr : list A) (r : Q) :
  (0 <= r)%Q -> (r < 1)%Q -> arr <> [] ->
  exists x, random_pick arr r = Some x /\ In x arr.
Proof.
  intros H0 H1 Hne. unfold random_pick.
  set (n := Z.of_nat (length arr)).
  assert (Hn : 0 < n).
  { unfold n. destruct arr; [contradiction | simpl; lia]. }
  set (i := Qfloor (r * inject_Z n)).
  assert (Hi0 : 0 <= i).
  { unfold i. rewrite <- (Qfloor_Z 0). apply Qfloor_resp_le.
    apply Qmult_le_0_compat; [exact H0|].
    change 0%Q with (inject_Z 0). rewrite <- Zle_Qle. lia. }
  assert (Hi1 : i < n).
  { rewrite Zlt_Qlt. apply Qle_lt_trans with (r * inject_Z n)%Q.
    - apply Qfloor_le.
    - rewrite <- (Qmult_1_l (inject_Z n)) at 2.
      apply Qmult_lt_compat_r; [|exact H1].
      change 0%Q with (inject_Z 0). rewrite <- Zlt_Qlt. exact Hn. }
  destruct (Z.ltb_spec i 0) as [Hneg|_]; [lia|].
  destruct (nth_error arr (Z.to_nat i)) as [x|] eqn:Hx.
  - exists x; split; [reflexivity|]. eapply nth_error_In; exact Hx.
  - apply nth_error_None in Hx. unfold n in Hi1. lia.
Qed.

End JsFacts.

(* ================================================================== *)
(** * Properties of the relay                                           *)
(* ================================================================== *)

Module RelayFacts.
Import Js JsFacts Relay.

(** ** The callback of [some] *)

Lemma is_system_normal msg b :
  is_system msg = Normal b -> b = system_role msg.
Proof.
  destruct msg; simpl; intros H; try discriminate; try (inversion H; reflexivity).
Qed.

Lemma is_system_object msg :
  nullish msg = false -> is_system msg = Normal (system_role msg).
Proof.
  destruct msg; simpl; intros H; try discriminate; reflexivity.
Qed.

Lemma some_system_normal msgs : forall b,
  some_system msgs = Normal b -> b = existsb system_role msgs.
Proof.
  induction msgs as [|m rest IH]; simpl; intros b H.
  - inversion H; reflexivity.
  - destruct (is_system m) as [b0|e] eqn:E; simpl in H; [|discriminate].
    apply is_system_normal in E. rewrite <- E.
    destruct b0; simpl.
    + inversion H; reflexivity.
    + apply IH; assumption.
Qed.

Lemma some_system_objects msgs :
  Forall (fun m => nullish m = false) msgs ->
  some_system msgs = Normal (existsb system_role msgs).
Proof.
  induction 1 as [|m rest Hm _ IH]; simpl; [reflexivity|].
  rewrite (is_system_object m Hm); simpl.
  destruct (system_role m); simpl; [reflexivity | exact IH].
Qed.

Lemma get_normal_twice body k m k' :
  get body k = Normal m -> exists m', get body k' = Normal m'.
Proof.
  destruct body; simpl; intros H; try discriminate; eexists; reflexivity.
Qed.

(** What [prepare] does with a body whose [messages] is an array. *)
Lemma prepare_array body msgs :
  get body "messages" = Normal (JArr msgs) ->
  exists t,
    prepare body =
    (hasSystemPrompt <- some_system msgs ;;
     Normal (inr {| chatMessages := if hasSystemPrompt then msgs else persona :: msgs;
                    temperature := t |})).
Proof.
  intros H. unfold prepare. rewrite H; simpl.
  destruct (get_normal_twice body "messages" _ "temperature" H) as [t Ht].
  rewrite Ht; simpl. eexists; reflexivity.
Qed.

Lemma prepare_not_array body m :
  get body "messages" = Normal m -> isArray m = false ->
  prepare body = Normal (inl invalid_request).
Proof.
  intros H Hm. unfold prepare. rewrite H; simpl.
  destruct (get_normal_twice body "messages" _ "temperature" H) as [t Ht].
  rewrite Ht; simpl. rewrite Hm, orb_true_r. reflexivity.
Qed.

(** ** Prompt injection *)

(** C1. A request whose messages carry no system-role message reaches
    the upstream call with exactly the persona message put in front of
    them; a request that already carries one reaches it with its
    messages as they came, in the same order. *)
Theorem persona_prepended_iff_no_system_message env body msgs :
  get body "messages" = Normal (JArr msgs) ->
  Forall (fun m => nullish m = false) msgs ->
  system_role persona = true /\
  (existsb system_role msgs = false ->
   sent_upstream env body = Some (persona :: msgs)) /\
  (existsb system_role msgs = true ->
   sent_upstream env body = Some msgs).
Proof.
  intros Hget Hobj.
  destruct (prepare_array body msgs Hget) as [t Hprep].
  rewrite (some_system_objects msgs Hobj) in Hprep; simpl in Hprep.
  unfold sent_upstream, api_chat. rewrite Hprep.
  split; [reflexivity|].
  split; intros Hsys; rewrite Hsys; reflexivity.
Qed.

Lemma persona_prepended_iff_no_system_message_witness :
  sent_upstream rate_limited_env (request [user_message "Namaste"])
    = Some [persona; user_message "Namaste"] /\
  sent_upstream rate_limited_env
      (request [system_message "Be brief."; user_message "Namaste"])
    = Some [system_message "Be brief."; user_message "Namaste"].
Proof.
  split.
  - apply (persona_prepended_iff_no_system_message rate_limited_env
             (request [user_message "Namaste"]) [user_message "Namaste"]).
    + reflexivity.
    + repeat constructor.
    + reflexivity.
  - apply (persona_prepended_iff_no_system_message rate_limited_env
             (request [system_message "Be brief."; user_message "Namaste"])
             [system_message "Be brief."; user_message "Namaste"]).
    + reflexivity.
    + repeat constructor.
    + reflexivity.
Defined.

(** C2, as stated, fails: a caller that places its system message after
    a user message has the list forwarded as it is, and the first
    element sent upstream is the user message. *)
Lemma system_message_not_leading :
  exists msgs,
    sent_upstream rate_limited_env
      (request [user_message "Namaste"; system_message "Be brief."]) = Some msgs /\
    ~ one_leading_system msgs.
Proof.
  eexists; split; [reflexivity|].
  intros [_ (first & rest & Heq & Hsys)].
  inversion Heq; subst. discriminate Hsys.
Qed.

(** C2, amended.  Every list sent upstream holds a system-role message
    and the caller's messages in their order: it is the caller's list
    itself when that list has a system-role message, and otherwise the
    persona message followed by the caller's list, in which case the
    persona is the only system-role message and comes first. *)
Theorem upstream_messages_keep_order_and_have_system env body call :
  fst (api_chat env body) = Some call ->
  exists msgs,
    get body "messages" = Normal (JArr msgs) /\
    existsb system_role (chatMessages call) = true /\
    ((existsb system_role msgs = true /\ chatMessages call = msgs) \/
     (existsb system_role msgs = false /\ chatMessages call = persona :: msgs /\
      one_leading_system (chatMessages call))).
Proof.
  unfold api_chat, prepare.
  destruct (get body "messages") as [m|e] eqn:Hm; simpl; [|discriminate].
  destruct (get body "temperature") as [t|e] eqn:Ht; simpl; [|discriminate].
  destruct (negb (truthy m) || negb (isArray m)) eqn:Hv; simpl; [discriminate|].
  destruct m as [| | | | |msgs|]; simpl in *; try discriminate.
  destruct (some_system msgs) as [b|e] eqn:Hs; simpl; [|discriminate].
  intros H; inversion H; subst call; clear H; simpl.
  apply some_system_normal in Hs.
  exists msgs. split; [reflexivity|].
  destruct b; simpl.
  - split; [symmetry; exact Hs|]. left; split; [symmetry; exact Hs | reflexivity].
  - split; [reflexivity|]. right.
    split; [symmetry; exact Hs|]. split; [reflexivity|].
    split.
    + assert (Hnone : filter system_role msgs = []).
      { clear - Hs. induction msgs as [|m r IH]; simpl in *; [reflexivity|].
        symmetry in Hs. apply orb_false_elim in Hs as [Hm Hr].
        rewrite Hm. apply IH. symmetry; exact Hr. }
      change (filter system_role (persona :: msgs))
        with (persona :: filter system_role msgs).
      rewrite Hnone. reflexivity.
    + exists persona, msgs. split; reflexivity.
Qed.

Lemma upstream_messages_keep_order_and_have_system_witness :
  exists msgs,
    get (request [user_message "Namaste"]) "messages" = Normal (JArr msgs) /\
    existsb system_role [persona; user_message "Namaste"] = true /\
    ((existsb system_role msgs = true /\
      [persona; user_message "Namaste"] = msgs) \/
     (existsb system_role msgs = false /\
      [persona; user_message "Namaste"] = persona :: msgs /\
      one_leading_system [persona; user_message "Namaste"])).
Proof.
  apply (upstream_messages_keep_order_and_have_system rate_limited_env
           (request [user_message "Namaste"])
           {| chatMessages := [persona; user_message "Namaste"];
              temperature := JNum (7 # 10) |}).
  reflexivity.
Defined.

(** ** Error taxonomy *)

(** C3. The error kind of a failed upstream call depends on the failure
    alone: 401, 429 and 503/504 have their own kinds, every other
    status is API_ERROR, a rejection without response is TIMEOUT when
    its code is ECONNABORTED and NETWORK_ERROR otherwise, and the two
    kinds differ. *)
Theorem error_kind_is_fixed_by_failure :
  let kind r c := code (generateResponse (AxiosRejected (AxiosError r c))) in
  (forall c, kind (Some 401) c = Some "INVALID_API_KEY") /\
  (forall c, kind (Some 429) c = Some "RATE_LIMITED") /\
  (forall c, kind (Some 503) c = Some "SERVICE_UNAVAILABLE") /\
  (forall c, kind (Some 504) c = Some "SERVICE_UNAVAILABLE") /\
  (forall status c,
     status <> 401 -> status <> 429 -> status <> 503 -> status <> 504 ->
     kind (Some status) c = Some "API_ERROR") /\
  kind None (Some "ECONNABORTED") = Some "TIMEOUT" /\
  (forall c, c <> Some "ECONNABORTED" -> kind None c = Some "NETWORK_ERROR") /\
  "TIMEOUT" <> "NETWORK_ERROR" /\
  (forall r c, success (generateResponse (AxiosRejected (AxiosError r c))) = false).
Proof.
  cbv zeta. repeat split; try reflexivity; try discriminate.
  - intros status c H1 H2 H3 H4.
    unfold generateResponse, read_completion, handle_error, error_response.
    apply Z.eqb_neq in H1, H2, H3, H4. rewrite H1, H2, H3, H4. reflexivity.
  - intros c Hc.
    unfold generateResponse, read_completion, handle_error, error_response,
      error_code, code_is.
    destruct c as [c|]; [|reflexivity].
    destruct (String.eqb_spec c "ECONNABORTED") as [->|Hne]; [|reflexivity].
    exfalso; apply Hc; reflexivity.
  - intros r c.
    unfold generateResponse, read_completion, handle_error, error_response,
      error_code.
    destruct r as [status|].
    + destruct (status =? 401); [reflexivity|].
      destruct (status =? 429); [reflexivity|].
      destruct ((status =? 503) || (status =? 504)); reflexivity.
    + destruct (code_is "ECONNABORTED" c); reflexivity.
Qed.

Lemma error_kind_is_fixed_by_failure_witness :
  code (generateResponse (AxiosRejected (AxiosError (Some 500) (Some "ERR_BAD_RESPONSE"))))
    = Some "API_ERROR" /\
  code (generateResponse (AxiosRejected (AxiosError None (Some "ECONNREFUSED"))))
    = Some "NETWORK_ERROR".
Proof.
  destruct error_kind_is_fixed_by_failure
    as (_ & _ & _ & _ & Hother & _ & Hnet & _).
  split.
  - apply Hother; lia.
  - apply Hnet; discriminate.
Defined.

(** ** Replies *)

Lemma fallbackResponses_nonempty f :
  In f fallbackResponses -> f <> "".
Proof.
  unfold fallbackResponses; simpl.
  intros [<-|[<-|[<-|[<-|[]]]]]; discriminate.
Qed.

(** The kinds [generateResponse] can report. *)
Lemma service_failure_kinds outcome :
  success (generateResponse outcome) = false ->
  In (code (generateResponse outcome))
     [Some "INVALID_API_KEY"; Some "RATE_LIMITED"; Some "SERVICE_UNAVAILABLE";
      Some "API_ERROR"; Some "TIMEOUT"; Some "NETWORK_ERROR"].
Proof.
  unfold generateResponse.
  destruct (read_completion outcome) as [r|e] eqn:Hr.
  - intros Hs. exfalso.
    destruct outcome as [[[[[|[c|] cs]|] u]|]|e']; simpl in Hr;
      try discriminate; inversion Hr; subst r; discriminate Hs.
  - intros _. unfold handle_error.
    destruct (error_response e) as [status|].
    + destruct (status =? 401); [simpl; tauto|].
      destruct (status =? 429); [simpl; tauto|].
      destruct ((status =? 503) || (status =? 504)); simpl; tauto.
    + destruct (code_is "ECONNABORTED" (error_code e)); simpl; tauto.
Qed.

(** The three ways [api_chat] ends. *)
Lemma api_chat_cases env body :
  api_chat env body = (None, server_error) \/
  api_chat env body = (None, invalid_request) \/
  exists call,
    api_chat env body =
    (Some call,
     respond (generateResponse (axios_post env call)) (random env) (now env)).
Proof.
  unfold api_chat, prepare.
  destruct (get body "messages") as [m|e]; simpl; [|left; reflexivity].
  destruct (get body "temperature") as [t|e]; simpl; [|left; reflexivity].
  destruct (negb (truthy m) || negb (isArray m)); simpl;
    [right; left; reflexivity|].
  destruct m; simpl; try (left; reflexivity).
  destruct (some_system items) as [b|e]; simpl; [|left; reflexivity].
  right; right. eexists; reflexivity.
Qed.

(** C4, as stated, fails: the reply to a body without [messages] is a
    failure reply and has no fallback field. *)
Lemma invalid_request_reply_has_no_fallback :
  let reply := snd (api_chat rate_limited_env (JObj [])) in
  reply_success reply = false /\
  reply_code reply = Some "INVALID_REQUEST" /\
  reply_fallback reply = None.
Proof.
  repeat split.
Qed.

(** C4, amended.  A failure reply is one of three: the 503 reply to an
    upstream failure, which carries a non-empty fallback text taken
    from the relay's list; the 400 INVALID_REQUEST reply and the 500
    SERVER_ERROR reply, which carry none. *)
Theorem fallback_only_on_upstream_failure env body :
  (0 <= random env)%Q -> (random env < 1)%Q ->
  let reply := snd (api_chat env body) in
  reply_success reply = false ->
  (http_status reply = 503 /\
   exists f, reply_fallback reply = Some f /\ f <> "" /\ In f fallbackResponses) \/
  (http_status reply = 400 /\ reply_code reply = Some "INVALID_REQUEST" /\
   reply_fallback reply = None) \/
  (http_status reply = 500 /\ reply_code reply = Some "SERVER_ERROR" /\
   reply_fallback reply = None).
Proof.
  intros H0 H1 reply. subst reply.
  destruct (api_chat_cases env body) as [E|[E|[call E]]]; rewrite E; simpl.
  - intros _. right; right. repeat split.
  - intros _. right; left. repeat split.
  - unfold respond.
    destruct (success (generateResponse (axios_post env call)));
      simpl; [discriminate|].
    intros _. left. split; [reflexivity|].
    destruct (random_pick_in fallbackResponses (random env) H0 H1)
      as [f [Hf Hin]]; [discriminate|].
    exists f. repeat split; try assumption.
    apply fallbackResponses_nonempty; assumption.
Qed.

Lemma fallback_only_on_upstream_failure_witness :
  let reply := snd (api_chat rate_limited_env (request [user_message "Namaste"])) in
  (http_status reply = 503 /\
   exists f, reply_fallback reply = Some f /\ f <> "" /\ In f fallbackResponses) \/
  (http_status reply = 400 /\ reply_code reply = Some "INVALID_REQUEST" /\
   reply_fallback reply = None) \/
  (http_status reply = 500 /\ reply_code reply = Some "SERVER_ERROR" /\
   reply_fallback reply = None).
Proof.
  apply (fallback_only_on_upstream_failure rate_limited_env
           (request [user_message "Namaste"])).
  - vm_compute; discriminate.
  - reflexivity.
  - reflexivity.
Defined.

(** C9. Whatever the kind of the upstream failure, the reply to the
    request has status 503 (and reports that kind); in particular so
    for every rejection of the upstream call. *)
Theorem upstream_failure_replies_503 env body call :
  fst (api_chat env body) = Some call ->
  let result := generateResponse (axios_post env call) in
  let reply := snd (api_chat env body) in
  (success result = false ->
   http_status reply = 503 /\
   reply_success reply = false /\
   reply_code reply = code result /\
   In (reply_code reply)
      [Some "INVALID_API_KEY"; Some "RATE_LIMITED"; Some "SERVICE_UNAVAILABLE";
       Some "API_ERROR"; Some "TIMEOUT"; Some "NETWORK_ERROR"]) /\
  (forall e, axios_post env call = AxiosRejected e ->
             http_status reply = 503 /\ reply_code reply = code (handle_error e)).
Proof.
  intros Hcall result reply. subst result reply.
  destruct (api_chat_cases env body) as [E|[E|[call' E]]];
    rewrite E in *; simpl in Hcall; try discriminate.
  inversion Hcall; subst call'; clear Hcall. simpl.
  split.
  - intros Hfail. unfold respond. rewrite Hfail; simpl.
    repeat split. apply service_failure_kinds; assumption.
  - intros e He. rewrite He.
    assert (Hfail : success (generateResponse (AxiosRejected e)) = false).
    { unfold generateResponse, read_completion, handle_error.
      destruct (error_response e) as [status|].
      - destruct (status =? 401); [reflexivity|].
        destruct (status =? 429); [reflexivity|].
        destruct ((status =? 503) || (status =? 504)); reflexivity.
      - destruct (code_is "ECONNABORTED" (error_code e)); reflexivity. }
    unfold respond. rewrite Hfail. split; reflexivity.
Qed.

Lemma upstream_failure_replies_503_witness :
  let reply := snd (api_chat rate_limited_env (request [user_message "Namaste"])) in
  http_status reply = 503 /\
  reply_success reply = false /\
  reply_code reply = Some "RATE_LIMITED" /\
  In (reply_code reply)
     [Some "INVALID_API_KEY"; Some "RATE_LIMITED"; Some "SERVICE_UNAVAILABLE";
      Some "API_ERROR"; Some "TIMEOUT"; Some "NETWORK_ERROR"].
Proof.
  apply (upstream_failure_replies_503 rate_limited_env
           (request [user_message "Namaste"])
           {| chatMessages := [persona; user_message "Namaste"];
              temperature := JNum (7 # 10) |}).
  - reflexivity.
  - reflexivity.
Defined.

(** C10. For a request that has a body, the reply is INVALID_REQUEST
    exactly when [messages] is absent or is not an array; an empty
    array passes, and the upstream call then receives the persona
    message alone. *)
Theorem invalid_request_iff_messages_not_array env body m :
  get body "messages" = Normal m ->
  (reply_code (snd (api_chat env body)) = Some "INVALID_REQUEST" <->
   m = JUndefined \/ isArray m = false) /\
  (m = JArr [] -> sent_upstream env body = Some [persona]).
Proof.
  intros Hm. split; [split|].
  - intros Hcode.
    destruct (isArray m) eqn:Harr; [|right; reflexivity].
    exfalso.
    destruct m; try discriminate Harr.
    destruct (prepare_array body items Hm) as [t Hprep].
    unfold api_chat in Hcode. rewrite Hprep in Hcode.
    destruct (some_system items) as [b|e]; simpl in Hcode; [|discriminate].
    unfold respond in Hcode.
    match type of Hcode with context [generateResponse ?o] =>
      pose proof (service_failure_kinds o) as Hk;
      destruct (success (generateResponse o)); simpl in Hcode;
        [discriminate|];
      specialize (Hk eq_refl); rewrite Hcode in Hk
    end.
    simpl in Hk. repeat (destruct Hk as [Hk|Hk]; [discriminate|]). exact Hk.
  - intros Hbad.
    assert (Harr : isArray m = false) by (destruct Hbad as [->|H]; auto).
    unfold api_chat. rewrite (prepare_not_array body m Hm Harr). reflexivity.
  - intros ->.
    destruct (prepare_array body [] Hm) as [t Hprep].
    unfold sent_upstream, api_chat. rewrite Hprep. reflexivity.
Qed.

Lemma invalid_request_iff_messages_not_array_witness :
  (reply_code (snd (api_chat rate_limited_env (request []))) = Some "INVALID_REQUEST" <->
   JArr [] = JUndefined \/ isArray (JArr []) = false) /\
  (JArr [] = JArr [] -> sent_upstream rate_limited_env (request []) = Some [persona]).
Proof.
  apply (invalid_request_iff_messages_not_array rate_limited_env (request []) (JArr [])).
  reflexivity.
Defined.

(** ** Runs *)

Example rate_limited_run :
  api_chat rate_limited_env (request [user_message "Namaste"]) =
  (Some {| chatMessages := [persona; user_message "Namaste"];
           temperature := JNum (7 # 10) |},
   {| http_status := 503; reply_success := false;
      reply_content := JUndefined; reply_usage := JUndefined;
      reply_timestamp := None;
      reply_error := Some "Rate limit exceeded. Please try again later.";
      reply_code := Some "RATE_LIMITED";
      reply_fallback := nth_error fallbackResponses 0 |}).
Proof. reflexivity. Qed.

Example timeout_is_not_network_error :
  code (generateResponse (AxiosRejected (AxiosError None (Some "ECONNABORTED"))))
    = Some "TIMEOUT" /\
  code (generateResponse (AxiosRejected (AxiosError None (Some "ENOTFOUND"))))
    = Some "NETWORK_ERROR".
Proof. split; reflexivity. Qed.

Example completion_run :
  let env := {| axios_post := fun _ =>
                  AxiosResolved (Some {| choices := Some [Some (JStr "Om.")];
                                         usage := JNull |});
                random := 0; now := "2024-01-01T00:00:00.000Z" |} in
  snd (api_chat env (request [user_message "Namaste"])) =
  {| http_status := 200; reply_success := true;
     reply_content := JStr "Om."; reply_usage := JNull;
     reply_timestamp := Some "2024-01-01T00:00:00.000Z";
     reply_error := None; reply_code := None; reply_fallback := None |}.
Proof. reflexivity. Qed.

Example null_entry_is_server_error :
  api_chat rate_limited_env (request [JNull]) = (None, server_error).
Proof. reflexivity. Qed.

Example missing_body_is_server_error :
  api_chat rate_limited_env JUndefined = (None, server_error).
Proof. reflexivity. Qed.

End RelayFacts.

(* ================================================================== *)
(** * Properties of the client                                          *)
(* ================================================================== *)

Module ClientFacts.
Import Js JsFacts Client.

(** ** [trim] and blank texts *)

Lemma ws2_not_ws1 a b : ws2 a b = true -> ws1 a = false.
Proof.
  unfold ws2, ws1. intros H.
  apply andb_prop in H as [Ha _]. apply N.eqb_eq in Ha. rewrite Ha. reflexivity.
Qed.

Lemma ws3_lead a b c :
  ws3 a b c = true ->
  byte a = 0xE1%N \/ byte a = 0xE2%N \/ byte a = 0xE3%N \/ byte a = 0xEF%N.
Proof.
  unfold ws3. intros H.
  repeat (apply orb_prop in H as [H|H]);
    repeat (apply andb_prop in H as [H ?]);
    apply N.eqb_eq in H; tauto.
Qed.

Lemma ws3_not_ws1 a b c : ws3 a b c = true -> ws1 a = false.
Proof.
  intros H. apply ws3_lead in H. unfold ws1.
  destruct H as [H|[H|[H|H]]]; rewrite H; reflexivity.
Qed.

Lemma ws3_not_ws2 a b c : ws3 a b c = true -> ws2 a b = false.
Proof.
  intros H. apply ws3_lead in H. unfold ws2.
  destruct H as [H|[H|[H|H]]]; rewrite H; reflexivity.
Qed.

Lemma trimStart_bytes_blank s :
  WhitespaceOnly s -> trimStart_bytes s = [].
Proof.
  induction 1 as [|a s Ha _ IH|a b s Hab _ IH|a b c s Habc _ IH].
  - reflexivity.
  - cbn [trimStart_bytes]. rewrite Ha. exact IH.
  - cbn [trimStart_bytes]. rewrite (ws2_not_ws1 a b Hab), Hab. exact IH.
  - cbn [trimStart_bytes].
    rewrite (ws3_not_ws1 a b c Habc), (ws3_not_ws2 a b c Habc), Habc. exact IH.
Qed.

Lemma trimStart_bytes_empty_bounded n : forall s,
  (length s <= n)%nat -> trimStart_bytes s = [] -> WhitespaceOnly s.
Proof.
  induction n as [|n IH]; intros s Hlen H.
  - destruct s; [constructor | simpl in Hlen; lia].
  - destruct s as [|a r1]; [constructor|].
    cbn [trimStart_bytes] in H. simpl in Hlen.
    destruct (ws1 a) eqn:E1.
    { apply ws_one; [exact E1 | apply IH; [lia | exact H]]. }
    destruct r1 as [|b r2]; [discriminate|]. simpl in Hlen.
    destruct (ws2 a b) eqn:E2.
    { apply ws_two; [exact E2 | apply IH; [lia | exact H]]. }
    destruct r2 as [|c r3]; [discriminate|]. simpl in Hlen.
    destruct (ws3 a b c) eqn:E3; [|discriminate].
    apply ws_three; [exact E3 | apply IH; [lia | exact H]].
Qed.

Lemma trimStart_bytes_empty s :
  trimStart_bytes s = [] <-> WhitespaceOnly s.
Proof.
  split.
  - apply (trimStart_bytes_empty_bounded (length s)); lia.
  - apply trimStart_bytes_blank.
Qed.

Lemma trimStart_bytes_idempotent_bounded n : forall s,
  (length s <= n)%nat ->
  trimStart_bytes (trimStart_bytes s) = trimStart_bytes s.
Proof.
  induction n as [|n IH]; intros s Hlen.
  - destruct s; [reflexivity | simpl in Hlen; lia].
  - destruct s as [|a r1]; [reflexivity|].
    cbn [trimStart_bytes]. simpl in Hlen.
    destruct (ws1 a) eqn:E1; [apply IH; lia|].
    destruct r1 as [|b r2].
    { cbn [trimStart_bytes]. rewrite E1. reflexivity. }
    simpl in Hlen.
    destruct (ws2 a b) eqn:E2; [apply IH; lia|].
    destruct r2 as [|c r3].
    { cbn [trimStart_bytes]. rewrite E1, E2. reflexivity. }
    simpl in Hlen.
    destruct (ws3 a b c) eqn:E3; [apply IH; lia|].
    cbn [trimStart_bytes]. rewrite E1, E2, E3. reflexivity.
Qed.

Lemma WhitespaceOnly_app s t :
  WhitespaceOnly s -> WhitespaceOnly t -> WhitespaceOnly (s ++ t).
Proof.
  intros Hs Ht.
  induction Hs as [|a s Ha _ IH|a b s Hab _ IH|a b c s Habc _ IH]; simpl.
  - exact Ht.
  - apply ws_one; assumption.
  - apply ws_two; assumption.
  - apply ws_three; assumption.
Qed.

Lemma trimEnd_reversed_empty_bounded n : forall s,
  (length s <= n)%nat -> trimEnd_reversed s = [] -> WhitespaceOnly (rev s).
Proof.
  induction n as [|n IH]; intros s Hlen H.
  - destruct s; [constructor | simpl in Hlen; lia].
  - destruct s as [|c r1]; [constructor|].
    cbn [trimEnd_reversed] in H. simpl in Hlen.
    destruct (ws1 c) eqn:E1.
    { simpl. apply WhitespaceOnly_app; [apply IH; [lia | exact H]|].
      apply ws_one; [exact E1 | constructor]. }
    destruct r1 as [|b r2]; [discriminate|]. simpl in Hlen.
    destruct (ws2 b c) eqn:E2.
    { simpl. rewrite <- app_assoc. simpl.
      apply WhitespaceOnly_app; [apply IH; [lia | exact H]|].
      apply ws_two; [exact E2 | constructor]. }
    destruct r2 as [|a r3]; [discriminate|]. simpl in Hlen.
    destruct (ws3 a b c) eqn:E3; [|discriminate].
    simpl. rewrite <- !app_assoc. simpl.
    apply WhitespaceOnly_app; [apply IH; [lia | exact H]|].
    apply ws_three; [exact E3 | constructor].
Qed.

(** [trim] returns the empty text exactly on blank texts. *)
Lemma trim_empty_iff s :
  trim s = "" <-> WhitespaceOnly (list_ascii_of_string s).
Proof.
  unfold trim. split.
  - intros H.
    apply (f_equal list_ascii_of_string) in H.
    rewrite list_ascii_of_string_of_list_ascii in H. simpl in H.
    apply (f_equal (@rev ascii)) in H. rewrite rev_involutive in H. simpl in H.
    apply (trimEnd_reversed_empty_bounded _ _ (le_n _)) in H.
    rewrite rev_involutive in H.
    apply trimStart_bytes_blank in H.
    rewrite (trimStart_bytes_idempotent_bounded _ _ (le_n _)) in H.
    apply trimStart_bytes_empty; exact H.
  - intros H. rewrite (trimStart_bytes_blank _ H). reflexivity.
Qed.

(** ** The request body *)

Lemma slice_last_ten {A} (l : list A) :
  slice (-10) l = skipn (length l - 10) l.
Proof.
  unfold slice. simpl. f_equal. lia.
Qed.

Lemma begin_proceeds g :
  trim (userInput_value g) <> "" -> isProcessing g = false ->
  exists g',
    handleUserMessage_begin g = (g', Some (sendToBackend_request g')) /\
    messageHistory g' =
      (messageHistory g ++
       [{| role := "user"; content := trim (userInput_value g) |}])%list /\
    chatWindow g' =
      (chatWindow g ++
       [{| bubble_text := trim (userInput_value g); bubble_isUser := true |}])%list /\
    isProcessing g' = true /\
    sessionId g' = sessionId g.
Proof.
  intros Htext Hbusy. unfold handleUserMessage_begin.
  apply String.eqb_neq in Htext. rewrite Htext, Hbusy. simpl.
  eexists. split; [reflexivity|]. repeat split.
Qed.

Lemma begin_inversion g g' req :
  handleUserMessage_begin g = (g', Some req) ->
  trim (userInput_value g) <> "" /\ isProcessing g = false.
Proof.
  unfold handleUserMessage_begin.
  destruct (String.eqb_spec (trim (userInput_value g)) "") as [E|E]; simpl;
    [discriminate|].
  destruct (isProcessing g); [discriminate|]. intros _. split; auto.
Qed.

(** C6. The request body holds the ten most recent entries of the
    history, in order, and the whole history when it has fewer; a
    history of twelve entries is sent without its first two.  For a
    submission the history is the one holding the message just
    submitted: after twelve earlier entries the body is the last nine
    of them followed by that message. *)
Theorem request_carries_ten_most_recent g :
  let history := messageHistory g in
  let sent := request_messages (sendToBackend_request g) in
  sent = skipn (length history - 10) history /\
  (length sent <= 10)%nat /\
  (exists older, history = (older ++ sent)%list) /\
  (length history = 12%nat -> length sent = 10%nat /\ sent = skipn 2 history) /\
  (forall g0 req,
     handleUserMessage_begin g0 = (g, Some req) ->
     let submitted :=
       {| role := "user"; content := trim (userInput_value g0) |} in
     req = sendToBackend_request g /\
     history = (messageHistory g0 ++ [submitted])%list /\
     (length (messageHistory g0) = 12%nat ->
      length (request_messages req) = 10%nat /\
      request_messages req = (skipn 3 (messageHistory g0) ++ [submitted])%list)).
Proof.
  intros history sent.
  assert (Hsent : sent = skipn (length history - 10) history).
  { unfold sent, sendToBackend_request; simpl. apply slice_last_ten. }
  split; [exact Hsent|].
  split; [rewrite Hsent, length_skipn; lia|].
  split; [exists (firstn (length history - 10) history);
          rewrite Hsent; symmetry; apply firstn_skipn|].
  split.
  - intros H12. rewrite Hsent, length_skipn, H12. split; reflexivity.
  - intros g0 req Hbegin submitted.
    destruct (begin_inversion _ _ _ Hbegin) as [Htext Hbusy].
    destruct (begin_proceeds g0 Htext Hbusy) as (g1 & E & Hhist & _).
    rewrite E in Hbegin. inversion Hbegin; subst g1 req; clear Hbegin.
    split; [reflexivity|]. split; [exact Hhist|].
    intros H12. fold sent. fold history in Hhist.
    rewrite Hsent, length_skipn, Hhist, length_app, H12.
    split; [reflexivity|].
    change (12 + length [submitted] - 10)%nat with 3%nat.
    rewrite skipn_app, H12. reflexivity.
Qed.

Lemma request_carries_ten_most_recent_witness :
  let g := chatted 12 (constructed "guruji_1_abc") in
  length (request_messages (sendToBackend_request g)) = 10%nat /\
  request_messages (sendToBackend_request g) = skipn 2 (messageHistory g).
Proof.
  apply (request_carries_ten_most_recent
           (chatted 12 (constructed "guruji_1_abc"))).
  reflexivity.
Defined.

(** ** Single flight *)

(** C7. Submitting is without effect, and sends nothing, when the input
    is blank or when a submission is in flight; otherwise it appends
    the user message, marks the session busy and sends a request.  The
    session stays busy, whatever is typed meanwhile, until the
    submission completes, which clears the mark. *)
Theorem submit_is_noop_iff_blank_or_busy g :
  (blank (userInput_value g) \/ isProcessing g = true ->
   handleUserMessage_begin g = (g, None)) /\
  (~ blank (userInput_value g) -> isProcessing g = false ->
   exists g' req,
     handleUserMessage_begin g = (g', Some req) /\
     messageHistory g' =
       (messageHistory g ++
        [{| role := "user"; content := trim (userInput_value g) |}])%list /\
     isProcessing g' = true /\
     (forall text,
        handleUserMessage_begin (set_userInput_value text g')
          = (set_userInput_value text g', None))) /\
  (forall outcome rnd,
     isProcessing (handleUserMessage_resume outcome rnd g) = false).
Proof.
  split; [|split].
  - intros H. unfold handleUserMessage_begin.
    destruct H as [H|H].
    + apply trim_empty_iff in H. rewrite H. reflexivity.
    + rewrite H, orb_true_r. reflexivity.
  - intros Hblank Hbusy.
    assert (Htext : trim (userInput_value g) <> "").
    { intros E. apply Hblank. apply trim_empty_iff; exact E. }
    destruct (begin_proceeds g Htext Hbusy) as (g' & E & Hhist & _ & Hflag & _).
    exists g', (sendToBackend_request g').
    repeat split; try assumption.
    intros text. unfold handleUserMessage_begin.
    change (isProcessing (set_userInput_value text g')) with (isProcessing g').
    rewrite Hflag, orb_true_r. reflexivity.
  - intros outcome rnd. reflexivity.
Qed.

Lemma submit_is_noop_iff_blank_or_busy_witness :
  handleUserMessage_begin (asking "   ") = (asking "   ", None) /\
  exists g' req,
    handleUserMessage_begin (asking " What is dharma? ") = (g', Some req) /\
    messageHistory g' =
      (messageHistory (asking " What is dharma? ") ++
       [{| role := "user"; content := "What is dharma?" |}])%list /\
    isProcessing g' = true /\
    (forall text,
       handleUserMessage_begin (set_userInput_value text g')
         = (set_userInput_value text g', None)).
Proof.
  split.
  - apply (submit_is_noop_iff_blank_or_busy (asking "   ")).
    left. apply trim_empty_iff. reflexivity.
  - apply (submit_is_noop_iff_blank_or_busy (asking " What is dharma? ")).
    + intros H. apply trim_empty_iff in H. discriminate H.
    + reflexivity.
Defined.

(** ** Connectivity *)

Lemma checkConnection_healthy g p :
  probe_healthy p = true ->
  connection_state (fst (checkConnection g p)) = "status-indicator connected" /\
  reconnectAttempts (fst (checkConnection g p)) = 0 /\
  snd (checkConnection g p) = None.
Proof.
  intros H. unfold checkConnection. rewrite H. repeat split.
Qed.

Lemma checkConnection_retry g p :
  probe_healthy p = false ->
  reconnectAttempts g < maxReconnectAttempts g ->
  connection_state (fst (checkConnection g p)) = "status-indicator connecting" /\
  reconnectAttempts (fst (checkConnection g p)) = reconnectAttempts g + 1 /\
  maxReconnectAttempts (fst (checkConnection g p)) = maxReconnectAttempts g /\
  snd (checkConnection g p) = Some 2000.
Proof.
  intros H Hlt. unfold checkConnection. rewrite H. cbn [set_reconnectAttempts
    updateConnectionStatus reconnectAttempts maxReconnectAttempts].
  destruct (Z.leb_spec (reconnectAttempts g + 1) (maxReconnectAttempts g));
    [|lia].
  repeat split.
Qed.

Lemma checkConnection_give_up g p :
  probe_healthy p = false ->
  maxReconnectAttempts g <= reconnectAttempts g ->
  connection_state (fst (checkConnection g p)) = "status-indicator error" /\
  snd (checkConnection g p) = None.
Proof.
  intros H Hge. unfold checkConnection. rewrite H. cbn [set_reconnectAttempts
    updateConnectionStatus reconnectAttempts maxReconnectAttempts].
  destruct (Z.leb_spec (reconnectAttempts g + 1) (maxReconnectAttempts g));
    [lia|].
  repeat split.
Qed.

Lemma connect_step g p rest :
  connect g (p :: rest) =
  match snd (checkConnection g p) with
  | Some _ => connect (fst (checkConnection g p)) rest
  | None => (fst (checkConnection g p), rest)
  end.
Proof.
  cbn [connect]. destruct (checkConnection g p) as [g' [d|]]; reflexivity.
Qed.

(** C8. A [checkConnection] run moves the connection state as follows:
    a successful probe gives connected; a failed probe while the
    attempts made so far are below the ceiling leaves connecting,
    counts the attempt and schedules the next probe after 2000 ms; a
    failed probe once the attempts have reached the ceiling gives
    error and schedules nothing, so that no later probe is issued.
    From a fresh session (ceiling 3) the fourth failed probe in a row
    gives error. *)
Theorem connectivity_state_machine g p :
  let g' := fst (checkConnection g p) in
  let timer := snd (checkConnection g p) in
  (probe_healthy p = true ->
   connection_state g' = "status-indicator connected" /\ timer = None) /\
  (probe_healthy p = false ->
   reconnectAttempts g < maxReconnectAttempts g ->
   connection_state g' = "status-indicator connecting" /\
   reconnectAttempts g' = reconnectAttempts g + 1 /\
   timer = Some 2000 /\
   forall later, connect g (p :: later) = connect g' later) /\
  (probe_healthy p = false ->
   maxReconnectAttempts g <= reconnectAttempts g ->
   connection_state g' = "status-indicator error" /\
   timer = None /\
   forall later, connect g (p :: later) = (g', later)) /\
  (forall session p1 p2 p3 later,
     probe_healthy p1 = false -> probe_healthy p2 = false ->
     probe_healthy p3 = false -> probe_healthy p = false ->
     let final := connect (constructed session) (p1 :: p2 :: p3 :: p :: later) in
     connection_state (fst final) = "status-indicator error" /\
     reconnectAttempts (fst final) = 4 /\
     snd final = later).
Proof.
  intros g' timer. subst g' timer.
  split; [|split; [|split]].
  - intros H. destruct (checkConnection_healthy g p H) as (Hs & _ & Ht).
    split; assumption.
  - intros H Hlt.
    destruct (checkConnection_retry g p H Hlt) as (Hs & Ha & _ & Ht).
    repeat split; try assumption.
    intros later. rewrite connect_step, Ht. reflexivity.
  - intros H Hge.
    destruct (checkConnection_give_up g p H Hge) as (Hs & Ht).
    repeat split; try assumption.
    intros later. rewrite connect_step, Ht. reflexivity.
  - intros session p1 p2 p3 later H1 H2 H3 H4 final. subst final.
    set (g0 := constructed session).
    destruct (checkConnection_retry g0 p1 H1) as (_ & A1 & M1 & T1);
      [reflexivity|].
    rewrite connect_step, T1.
    set (g1 := fst (checkConnection g0 p1)) in *.
    change (reconnectAttempts g0 + 1) with 1 in A1.
    change (maxReconnectAttempts g0) with 3 in M1.
    destruct (checkConnection_retry g1 p2 H2) as (_ & A2 & M2 & T2);
      [rewrite A1, M1; reflexivity|].
    rewrite connect_step, T2.
    set (g2 := fst (checkConnection g1 p2)) in *.
    rewrite A1 in A2. rewrite M1 in M2.
    destruct (checkConnection_retry g2 p3 H3) as (_ & A3 & M3 & T3);
      [rewrite A2, M2; reflexivity|].
    rewrite connect_step, T3.
    set (g3 := fst (checkConnection g2 p3)) in *.
    rewrite A2 in A3. rewrite M2 in M3.
    destruct (checkConnection_give_up g3 p H4) as (S4 & T4);
      [rewrite A3, M3; discriminate|].
    rewrite connect_step, T4. cbn [fst snd].
    repeat split; try assumption.
    unfold checkConnection. rewrite H4.
    cbn [set_reconnectAttempts updateConnectionStatus reconnectAttempts
         maxReconnectAttempts].
    rewrite A3, M3. reflexivity.
Qed.

Lemma connectivity_state_machine_witness :
  let g := constructed "guruji_1_abc" in
  (connection_state (fst (checkConnection g (ProbeAnswered true (Some "healthy"))))
     = "status-indicator connected" /\
   snd (checkConnection g (ProbeAnswered true (Some "healthy"))) = None) /\
  (connection_state (fst (checkConnection g ProbeRejected))
     = "status-indicator connecting" /\
   reconnectAttempts (fst (checkConnection g ProbeRejected)) = 1 /\
   snd (checkConnection g ProbeRejected) = Some 2000 /\
   forall later,
     connect g (ProbeRejected :: later)
       = connect (fst (checkConnection g ProbeRejected)) later) /\
  (let spent := set_reconnectAttempts 3 g in
   connection_state (fst (checkConnection spent ProbeRejected))
     = "status-indicator error" /\
   snd (checkConnection spent ProbeRejected) = None /\
   forall later,
     connect spent (ProbeRejected :: later)
       = (fst (checkConnection spent ProbeRejected), later)).
Proof.
  intros g. split; [|split].
  - apply (connectivity_state_machine g (ProbeAnswered true (Some "healthy"))).
    reflexivity.
  - apply (connectivity_state_machine g ProbeRejected).
    + reflexivity.
    + reflexivity.
  - intros spent.
    apply (connectivity_state_machine spent ProbeRejected).
    + reflexivity.
    + discriminate.
Defined.

(** ** Failed chat calls *)

Lemma networkErrorMessage_not_local :
  ~ In networkErrorMessage errorMessages.
Proof.
  unfold errorMessages, networkErrorMessage; simpl.
  intros [H|[H|[H|[H|[]]]]]; discriminate H.
Qed.

Lemma present_some f : f <> "" -> present (Some f) = true.
Proof.
  intros H. simpl. apply String.eqb_neq in H. rewrite H. reflexivity.
Qed.

(** What the [catch] and [finally] blocks leave behind. *)
Lemma resume_after_throw outcome rnd g e :
  handleUserMessage_try outcome rnd g = (g, Some e) \/
  handleUserMessage_try outcome rnd g = (hideTypingIndicator g, Some e) ->
  shows networkErrorMessage g (handleUserMessage_resume outcome rnd g).
Proof.
  unfold handleUserMessage_resume.
  intros [E|E]; rewrite E; split; reflexivity.
Qed.

(** C5, as stated, fails: the relay's SERVER_ERROR reply is a failed
    call that carries no fallback, the relay was reached, and the text
    shown is the network message, which is none of the local fallback
    phrases. *)
Lemma server_error_answer_shows_network_message :
  let g := fst (handleUserMessage_begin (asking "What is dharma?")) in
  let g' := handleUserMessage_resume server_error_answer 0 g in
  shows networkErrorMessage g g' /\
  ~ exists text, In text errorMessages /\ shows text g g'.
Proof.
  split; [split; reflexivity|].
  intros (text & Hin & _ & Hhist).
  assert (Htext : text = networkErrorMessage).
  { vm_compute in Hhist. inversion Hhist. reflexivity. }
  subst text. exact (networkErrorMessage_not_local Hin).
Qed.

(** C5, amended.  When the relay answers with a non-OK status and a
    non-empty fallback, the client shows that fallback.  When it
    answers with an OK status and [success] false, the client shows the
    answer's non-empty fallback, and without one a phrase of its four
    local ones.  When the relay cannot be reached, when its answer is
    not JSON or is [null], and when a non-OK answer carries no fallback,
    the client shows the fixed network message, which is none of the
    local phrases.  In each case the text shown is appended to the
    history as an assistant message. *)
Theorem failed_chat_call_shows_fallback g outcome rnd :
  (0 <= rnd)%Q -> (rnd < 1)%Q ->
  let g' := handleUserMessage_resume outcome rnd g in
  (forall data f,
     outcome = FetchAnswered false (JsonObject data) ->
     data_fallback data = Some f -> f <> "" ->
     shows f g g') /\
  (forall data,
     outcome = FetchAnswered true (JsonObject data) -> success data = false ->
     (forall f, data_fallback data = Some f -> f <> "" -> shows f g g') /\
     (present (data_fallback data) = false ->
      exists text, In text errorMessages /\ shows text g g')) /\
  (outcome = FetchRejected \/
   (exists ok, outcome = FetchAnswered ok NotJson) \/
   (exists ok, outcome = FetchAnswered ok JsonNull) \/
   (exists data, outcome = FetchAnswered false (JsonObject data) /\
                 present (data_fallback data) = false) ->
   shows networkErrorMessage g g') /\
  ~ In networkErrorMessage errorMessages.
Proof.
  intros H0 H1 g'. subst g'.
  split; [|split; [|split]].
  - intros data f -> Hf Hne.
    unfold handleUserMessage_resume, handleUserMessage_try, sendToBackend_settle.
    rewrite Hf, (present_some f Hne). split; reflexivity.
  - intros data -> Hfail. split.
    + intros f Hf Hne.
      unfold handleUserMessage_resume, handleUserMessage_try,
        sendToBackend_settle, handleAPIError.
      rewrite Hfail, Hf, (present_some f Hne). split; reflexivity.
    + intros Habsent.
      destruct (random_pick_in errorMessages rnd H0 H1) as (text & Hpick & Hin);
        [discriminate|].
      exists text. split; [exact Hin|].
      unfold handleUserMessage_resume, handleUserMessage_try,
        sendToBackend_settle, handleAPIError.
      rewrite Hfail, Habsent, Hpick. split; reflexivity.
  - intros [->|[[ok ->]|[[ok ->]|(data & -> & Habsent)]]].
    + apply (resume_after_throw _ _ _ TypeError). left; reflexivity.
    + apply (resume_after_throw _ _ _ (Error "SyntaxError")).
      left; destruct ok; reflexivity.
    + apply (resume_after_throw _ _ _ TypeError).
      destruct ok; [right | left]; reflexivity.
    + eapply resume_after_throw. left.
      unfold handleUserMessage_try, sendToBackend_settle.
      rewrite Habsent. reflexivity.
  - exact networkErrorMessage_not_local.
Qed.

Lemma failed_chat_call_shows_fallback_witness :
  let g := fst (handleUserMessage_begin (asking "What is dharma?")) in
  let fallback := "The sage will return shortly." in
  shows fallback g
    (handleUserMessage_resume
       (FetchAnswered false
          (JsonObject {| success := false; data_content := None;
                         data_error := Some "Rate limit exceeded. Please try again later.";
                         data_fallback := Some fallback |}))
       (1 # 2) g) /\
  shows networkErrorMessage g
    (handleUserMessage_resume server_error_answer (1 # 2) g).
Proof.
  intros g fallback.
  assert (Hlow : (0 <= 1 # 2)%Q) by (vm_compute; discriminate).
  assert (Hhigh : (1 # 2 < 1)%Q) by reflexivity.
  split.
  - destruct (failed_chat_call_shows_fallback g
                (FetchAnswered false
                   (JsonObject {| success := false; data_content := None;
                                  data_error := Some "Rate limit exceeded. Please try again later.";
                                  data_fallback := Some fallback |}))
                (1 # 2) Hlow Hhigh) as (Hfallback & _).
    eapply Hfallback.
    + reflexivity.
    + reflexivity.
    + discriminate.
  - destruct (failed_chat_call_shows_fallback g server_error_answer
                (1 # 2) Hlow Hhigh) as (_ & _ & Hnetwork & _).
    apply Hnetwork.
    right; right; right.
    eexists; split; reflexivity.
Defined.

(** ** Runs *)

Example trim_strips_both_ends :
  trim "  What is dharma?  " = "What is dharma?".
Proof. reflexivity. Qed.

Example trim_knows_ideographic_space :
  trim "　Om　" = "Om".
Proof. reflexivity. Qed.

Example slice_of_twelve :
  slice (-10) [1; 2; 3; 4; 5; 6; 7; 8; 9; 10; 11; 12]
    = [3; 4; 5; 6; 7; 8; 9; 10; 11; 12].
Proof. reflexivity. Qed.

Example slice_of_three :
  slice (-10) [1; 2; 3] = [1; 2; 3].
Proof. reflexivity. Qed.

Example three_retries_then_connected :
  let run := connect (constructed "guruji_1_abc")
               [ProbeRejected; ProbeAnswered false (Some "healthy");
                ProbeAnswered true None; ProbeAnswered true (Some "healthy");
                ProbeRejected] in
  connection_state (fst run) = "status-indicator connected" /\
  reconnectAttempts (fst run) = 0 /\
  snd run = [ProbeRejected].
Proof. repeat split. Qed.

Example rate_limited_round :
  let g := fst (handleUserMessage_begin (asking "What is dharma?")) in
  let answer :=
    FetchAnswered false
      (JsonObject {| success := false; data_content := None;
                     data_error := Some "Rate limit exceeded. Please try again later.";
                     data_fallback := Some "The sage will return shortly." |}) in
  map content (messageHistory (handleUserMessage_resume answer 0 g)) =
  [ "🕉️ Namaste. I am Guruji, a humble channel of DeepSeek wisdom. What question stirs in your heart today?";
    "What is dharma?";
    "The sage will return shortly." ].
Proof. reflexivity. Qed.

End ClientFacts.

(* ================================================================== *)
(** * Properties of message formatting                                  *)
(* ================================================================== *)

Module FormatFacts.
Import Js Client ClientFacts.

Local Open Scope list_scope.

Lemma starts_ws_lead a r : starts_ws (a :: r) = true -> ws_lead a = true.
Proof.
  unfold starts_ws, ws_lead. intros H.
  destruct (ws1 a) eqn:E1; [reflexivity|]. simpl in *.
  destruct r as [|b r]; [discriminate|].
  destruct (ws2 a b) eqn:E2.
  { unfold ws2 in E2. apply andb_prop in E2 as [E2 _]. rewrite E2. reflexivity. }
  simpl in H. destruct r as [|c r]; [discriminate|].
  apply ws3_lead in H.
  destruct H as [H|[H|[H|H]]]; rewrite H; reflexivity.
Qed.

Lemma starts_ws_app x c : starts_ws x = true -> starts_ws (x ++ c) = true.
Proof.
  destruct x as [|a [|b [|d x]]]; simpl; intros H; try discriminate.
  - rewrite orb_false_r in H. rewrite H. reflexivity.
  - rewrite orb_false_r in H. apply orb_prop in H as [H|H]; rewrite H;
      [reflexivity | apply orb_true_r].
  - exact H.
Qed.

Lemma after_Some p : forall s r, after p s = Some r -> s = (p ++ r)%list.
Proof.
  induction p as [|x p IH]; intros s r H; simpl in *.
  - inversion H; reflexivity.
  - destruct s as [|y s]; [discriminate|].
    destruct (Ascii.eqb_spec x y) as [->|]; [|discriminate].
    f_equal. apply IH; exact H.
Qed.

Lemma after_app p r : after p (p ++ r) = Some r.
Proof.
  induction p as [|x p IH]; simpl; [reflexivity|].
  rewrite Ascii.eqb_refl. exact IH.
Qed.

Lemma url_tail_true s :
  url_tail s = true ->
  exists x, s = (list_ascii_of_string "://" ++ x)%list /\ x <> [] /\ starts_ws x = false.
Proof.
  unfold url_tail.
  destruct (after (list_ascii_of_string "://") s) as [rest|] eqn:E; [|discriminate].
  apply after_Some in E. destruct rest as [|a rest]; [discriminate|].
  intros H. exists (a :: rest). split; [exact E|]. split; [discriminate|].
  apply negb_true_iff in H. exact H.
Qed.

Lemma url_at_true s :
  url_at s = true ->
  exists scheme x, In scheme schemes /\ s = (scheme ++ x)%list /\ x <> [] /\
                   starts_ws x = false.
Proof.
  unfold url_at.
  destruct (after (list_ascii_of_string "http") s) as [rest|] eqn:E; [|discriminate].
  apply after_Some in E.
  assert (Hplain : url_tail rest = true ->
    exists scheme x, In scheme schemes /\ s = (scheme ++ x)%list /\ x <> [] /\
                     starts_ws x = false).
  { intros H. apply url_tail_true in H as (x & Hx & Hne & Hws).
    exists (list_ascii_of_string "http://"), x. subst. repeat split; simpl; auto. }
  destruct (after (list_ascii_of_string "s") rest) as [rest'|] eqn:E'; [|exact Hplain].
  intros H. apply orb_prop in H as [H|H]; [|exact (Hplain H)].
  apply after_Some in E'. apply url_tail_true in H as (x & Hx & Hne & Hws).
  exists (list_ascii_of_string "https://"), x. subst. repeat split; simpl; auto.
Qed.

Lemma url_at_scheme scheme x :
  In scheme schemes -> x <> [] -> starts_ws x = false ->
  url_at (scheme ++ x) = true.
Proof.
  intros Hin Hne Hws. destruct x as [|a x]; [contradiction|].
  destruct Hin as [<-|[<-|[]]].
  - unfold url_at, url_tail. cbn -[starts_ws]. rewrite Hws. 
    destruct (Ascii.eqb "s" ":"); reflexivity.
  - unfold url_at, url_tail. cbn -[starts_ws]. rewrite Hws. reflexivity.
Qed.

Lemma url_at_not_ws s : url_at s = true -> starts_ws s = false.
Proof.
  intros H. apply url_at_true in H as (scheme & x & Hin & -> & _ & _).
  destruct (starts_ws (scheme ++ x)) eqn:E; [|reflexivity].
  destruct Hin as [<-|[<-|[]]]; apply starts_ws_lead in E; discriminate E.
Qed.

Lemma no_url_start_snoc t a c :
  no_url_start t (a :: c) -> url_at (a :: c) = false ->
  no_url_start (t ++ [a]) c.
Proof.
  intros Ht Ha t1 t2 E Hne.
  destruct (exists_last Hne) as (t2' & b & ->).
  rewrite app_assoc in E. apply app_inj_tail in E as [E ->].
  rewrite <- app_assoc. simpl.
  destruct t2' as [|x t2']; [exact Ha|].
  apply (Ht t1); [exact E | discriminate].
Qed.

Lemma no_ws_start_snoc u a c :
  no_ws_start u (a :: c) -> starts_ws (a :: c) = false ->
  no_ws_start (u ++ [a]) c.
Proof.
  intros Hu Ha u1 u2 E Hne.
  destruct (exists_last Hne) as (u2' & b & ->).
  rewrite app_assoc in E. apply app_inj_tail in E as [E ->].
  rewrite <- app_assoc. simpl.
  destruct u2' as [|x u2']; [exact Ha|].
  apply (Hu u1); [exact E | discriminate].
Qed.

Lemma no_start_single (P : list ascii -> bool) a c :
  P (a :: c) = false ->
  forall t1 t2, [a] = (t1 ++ t2)%list -> t2 <> [] -> P (t2 ++ c) = false.
Proof.
  intros H t1 t2 E Hne.
  destruct t1 as [|x t1].
  - simpl in E. subst t2. exact H.
  - inversion E. destruct t1; destruct t2; try discriminate. contradiction.
Qed.

(** The scanner returns the parts [split] is specified to return. *)
Lemma split_scan_spec s :
  (forall acc, no_url_start (rev acc) s ->
               SplitAtUrls (rev acc ++ s) (split_scan false acc s)) /\
  (forall acc, no_ws_start (rev acc) s ->
               exists u rest parts,
                 (rev acc ++ s = u ++ rest)%list /\
                 split_scan true acc s = u :: parts /\
                 no_ws_start u rest /\
                 (rest = [] \/ starts_ws rest = true) /\
                 SplitAtUrls rest parts).
Proof.
  induction s as [|a r [IHtext IHurl]].
  - split; intros acc H; simpl.
    + rewrite app_nil_r. apply split_last. exact H.
    + exists (rev acc), [], [[]]. repeat split; auto.
      apply split_last. intros t1 t2 E Hne.
      destruct t1; destruct t2; try discriminate. contradiction.
  - split; intros acc H; cbn [split_scan].
    + destruct (url_at (a :: r)) eqn:E.
      * destruct (IHurl [a]) as (u & rest & parts & Hsplit & Hscan & Hu & Hrest & Hparts).
        { simpl. unfold no_ws_start. apply (no_start_single starts_ws).
          apply url_at_not_ws; exact E. }
        rewrite Hscan. simpl in Hsplit. rewrite Hsplit in *.
        apply split_match; assumption.
      * replace (rev acc ++ a :: r)%list with (rev (a :: acc) ++ r)%list
          by (simpl; rewrite <- app_assoc; reflexivity).
        apply IHtext. simpl. apply no_url_start_snoc; assumption.
    + destruct (starts_ws (a :: r)) eqn:E.
      * exists (rev acc), (a :: r), (split_scan false [a] r).
        repeat split; auto.
        apply (IHtext [a]). simpl. unfold no_url_start.
        apply (no_start_single url_at).
        destruct (url_at (a :: r)) eqn:U; [|reflexivity].
        apply url_at_not_ws in U. congruence.
      * destruct (IHurl (a :: acc)) as (u & rest & parts & Hsplit & Hscan & Hrest).
        { simpl. apply no_ws_start_snoc; assumption. }
        exists u, rest, parts. split; [|split; [exact Hscan | exact Hrest]].
        rewrite <- Hsplit. simpl. rewrite <- app_assoc. reflexivity.
Qed.

Lemma split_scan_SplitAtUrls s : SplitAtUrls s (split_scan false [] s).
Proof.
  apply (proj1 (split_scan_spec s) []).
  intros t1 t2 E. destruct t1; destruct t2; try discriminate. contradiction.
Qed.

Lemma split_concat s parts : SplitAtUrls s parts -> concat parts = s.
Proof.
  induction 1 as [t _|t u rest parts _ _ _ _ _ IH]; simpl.
  - apply app_nil_r.
  - rewrite IH. reflexivity.
Qed.

Lemma match_is_url u rest :
  url_at (u ++ rest) = true -> no_ws_start u rest ->
  rest = [] \/ starts_ws rest = true ->
  is_url u.
Proof.
  intros Hat Hws Hrest.
  assert (Hinside : forall u1 u2, u = u1 ++ u2 -> u2 <> [] -> starts_ws u2 = false).
  { intros u1 u2 E Hne. specialize (Hws u1 u2 E Hne).
    destruct (starts_ws u2) eqn:S; [|reflexivity].
    apply (starts_ws_app u2 rest) in S. congruence. }
  apply url_at_true in Hat as (scheme & x & Hin & E & Hne & Hx).
  assert (Hscheme : Forall (fun a => ws_lead a = false) scheme).
  { destruct Hin as [<-|[<-|[]]]; repeat constructor. }
  assert (Hin' : scheme = list_ascii_of_string "http://" \/
                 scheme = list_ascii_of_string "https://").
  { destruct Hin as [<-|[<-|[]]]; auto. }
  destruct Hrest as [->|Hrest].
  - rewrite app_nil_r in E. exists scheme, x. repeat split; assumption.
  - destruct rest as [|a rest]; [discriminate|].
    apply app_eq_app in E as [l [[E1 E2]|[E1 E2]]].
    + (* the scheme ends inside the match *)
      destruct l as [|b l].
      * simpl in E2. subst x. congruence.
      * exists scheme, (b :: l). repeat split; try assumption. discriminate.
    + (* the match would end inside the scheme *)
      exfalso. destruct l as [|b l].
      * simpl in E2. subst x. congruence.
      * inversion E2; subst b. apply starts_ws_lead in Hrest.
        rewrite Forall_forall in Hscheme.
        rewrite (Hscheme a) in Hrest; [discriminate|].
        rewrite E1. apply in_or_app. right. left. reflexivity.
Qed.

Lemma ws2_before_h a : ws2 a "h" = false.
Proof. unfold ws2. apply andb_false_r. Qed.

Lemma ws3_before_h a b : ws3 a b "h" = false.
Proof.
  unfold ws3. change (byte "h") with 104%N. cbn [N.eqb N.leb N.compare Pos.eqb Pos.compare Pos.compare_cont andb orb].
  rewrite !andb_false_r. reflexivity.
Qed.

Lemma ws3_h_inside a c : ws3 a "h" c = false.
Proof.
  unfold ws3. change (byte "h") with 104%N. cbn [N.eqb Pos.eqb].
  rewrite !andb_false_r. reflexivity.
Qed.

Lemma starts_ws_before_h x c :
  x <> [] -> starts_ws x = false -> starts_ws (x ++ "h"%char :: c) = false.
Proof.
  intros Hne H.
  destruct x as [|a [|b [|d x]]]; [contradiction| | |exact H];
    cbn [starts_ws app] in *.
  - apply orb_false_elim in H as [H _].
    rewrite H, ws2_before_h.
    destruct c; [reflexivity | apply ws3_h_inside].
  - apply orb_false_elim in H as [H1 H2].
    apply orb_false_elim in H2 as [H2 _].
    rewrite H1, H2, ws3_before_h. reflexivity.
Qed.

Lemma url_at_in_context t c :
  url_at t = true -> c = [] \/ url_at c = true -> url_at (t ++ c) = true.
Proof.
  intros Ht [->|Hc]; [rewrite app_nil_r; exact Ht|].
  apply url_at_true in Ht as (scheme & x & Hin & -> & Hne & Hx).
  rewrite <- app_assoc. apply url_at_scheme; [exact Hin | |].
  - destruct x; [contradiction | discriminate].
  - apply url_at_true in Hc as (scheme' & x' & Hin' & -> & _).
    destruct Hin' as [<-|[<-|[]]]; apply starts_ws_before_h; assumption.
Qed.

Lemma url_test_true s :
  url_test s = true <-> exists s1 s2, s = s1 ++ s2 /\ url_at s2 = true.
Proof.
  split.
  - induction s as [|a s IH]; cbn [url_test].
    + intros H. discriminate H.
    + intros H. apply orb_prop in H as [H|H].
      * exists [], (a :: s). split; [reflexivity | exact H].
      * destruct (IH H) as (s1 & s2 & -> & H2).
        exists (a :: s1), s2. split; [reflexivity | exact H2].
  - intros (s1 & s2 & -> & H).
    induction s1 as [|a s1 IH]; cbn [app url_test].
    + destruct s2; [discriminate H|]. cbn [url_test]. rewrite H. reflexivity.
    + rewrite IH. apply orb_true_r.
Qed.

Lemma text_part_has_no_url t c :
  no_url_start t c -> c = [] \/ url_at c = true -> url_test t = false.
Proof.
  intros Ht Hc. destruct (url_test t) eqn:E; [|reflexivity].
  apply url_test_true in E as (t1 & t2 & -> & H2).
  assert (Hne : t2 <> []) by (destruct t2; [discriminate | discriminate]).
  specialize (Ht t1 t2 eq_refl Hne).
  rewrite (url_at_in_context t2 c H2 Hc) in Ht. discriminate.
Qed.

Lemma is_url_url_at u : is_url u -> url_at u = true.
Proof.
  intros (scheme & x & Hs & -> & Hne & Hin).
  apply url_at_scheme; [destruct Hs as [->| ->]; simpl; auto | exact Hne |].
  apply (Hin scheme x eq_refl Hne).
Qed.

Lemma url_at_url_test s : url_at s = true -> url_test s = true.
Proof.
  intros H. apply url_test_true. exists [], s. split; [reflexivity | exact H].
Qed.

Lemma format_part_text t :
  url_test t = false ->
  format_part (string_of_list_ascii t) = TextNode (string_of_list_ascii t).
Proof.
  intros H. unfold format_part.
  rewrite list_ascii_of_string_of_list_ascii, H. reflexivity.
Qed.

Lemma format_part_link u :
  is_url u ->
  exists a, format_part (string_of_list_ascii u) = Link a /\ safe_link a /\
            href a = string_of_list_ascii u.
Proof.
  intros H. unfold format_part.
  rewrite list_ascii_of_string_of_list_ascii.
  rewrite (url_at_url_test u (is_url_url_at u H)).
  eexists. split; [reflexivity|]. split; [|reflexivity].
  unfold safe_link; simpl. rewrite list_ascii_of_string_of_list_ascii.
  repeat split. exact H.
Qed.

Lemma format_parts_shape s parts :
  SplitAtUrls s parts ->
  let nodes := map format_part (map string_of_list_ascii parts) in
  Alternating nodes /\
  (forall a, In (Link a) nodes -> safe_link a) /\
  (forall data, In (TextNode data) nodes ->
                url_test (list_ascii_of_string data) = false) /\
  ((1 < length parts)%nat -> exists a, In (Link a) nodes).
Proof.
  induction 1 as [t Ht|t u rest parts Ht Hat Hu Hrest _ IH]; cbn zeta.
  - assert (Hno : url_test t = false)
      by (apply (text_part_has_no_url t []); auto).
    simpl. rewrite (format_part_text t Hno).
    split; [constructor|]. split; [|split].
    + intros a [H|[]]; discriminate H.
    + intros data [H|[]]. inversion H; subst data.
      rewrite list_ascii_of_string_of_list_ascii. exact Hno.
    + simpl. lia.
  - assert (Hno : url_test t = false)
      by (apply (text_part_has_no_url t (u ++ rest)); auto).
    destruct (format_part_link u (match_is_url u rest Hat Hu Hrest))
      as (a & Ha & Hsafe & _).
    cbn zeta in IH. destruct IH as (IHalt & IHlink & IHtext & _).
    cbn [map]. rewrite (format_part_text t Hno), Ha.
    split; [constructor; exact IHalt|]. split; [|split].
    + intros a' [H|[H|H]]; [discriminate H | | apply IHlink; exact H].
      inversion H; subst a'. exact Hsafe.
    + intros data [H|[H|H]]; [ | discriminate H | apply IHtext; exact H].
      inversion H; subst data.
      rewrite list_ascii_of_string_of_list_ascii. exact Hno.
    + intros _. exists a. right; left; reflexivity.
Qed.

Lemma string_of_list_ascii_app a b :
  string_of_list_ascii (a ++ b) =
  (string_of_list_ascii a ++ string_of_list_ascii b)%string.
Proof.
  induction a as [|x a IH]; simpl; [reflexivity | rewrite IH; reflexivity].
Qed.

Lemma append_empty s : (s ++ "")%string = s.
Proof.
  induction s as [|a s IH]; simpl; [reflexivity | rewrite IH; reflexivity].
Qed.

Lemma concat_strings parts :
  String.concat "" (map string_of_list_ascii parts) =
  string_of_list_ascii (concat parts).
Proof.
  induction parts as [|p parts IH]; [reflexivity|].
  cbn [map concat]. rewrite string_of_list_ascii_app, <- IH.
  destruct parts as [|q parts]; simpl.
  - symmetry. apply append_empty.
  - reflexivity.
Qed.

Lemma node_text_format_part part : node_text (format_part part) = part.
Proof.
  unfold format_part. destruct (url_test (list_ascii_of_string part)); reflexivity.
Qed.

Lemma split_urlRegex_spec text :
  SplitAtUrls (list_ascii_of_string text)
              (split_scan false [] (list_ascii_of_string text)).
Proof. apply split_scan_SplitAtUrls. Qed.

Lemma url_test_split_has_match s parts :
  SplitAtUrls s parts -> url_test s = true -> (1 < length parts)%nat.
Proof.
  intros H Htest. destruct H as [t Ht|t u rest parts _ _ _ _ _].
  - rewrite (text_part_has_no_url t [] Ht) in Htest by auto. discriminate.
  - simpl. lia.
Qed.

(** X1. What the bubble displays is the message text, character for
    character, whether or not it was cut into text nodes and anchors. *)
Theorem formatMessage_keeps_the_text text :
  displayed (formatMessage (Some text)) = text.
Proof.
  unfold formatMessage.
  destruct (text =? "")%string; [reflexivity|].
  destruct (url_test (list_ascii_of_string text)); [|reflexivity].
  unfold displayed, split_urlRegex.
  rewrite map_map.
  rewrite (map_ext _ (fun p => p) node_text_format_part), map_id.
  rewrite concat_strings.
  rewrite (split_concat _ _ (split_urlRegex_spec text)).
  apply string_of_list_ascii_of_string.
Qed.

Lemma url_test_contains text :
  url_test (list_ascii_of_string text) = true <-> contains_url text.
Proof.
  rewrite url_test_true. split.
  - intros (s1 & s2 & E & H).
    apply url_at_true in H as (scheme & x & Hin & -> & Hne & Hx).
    exists s1, scheme, x. repeat split; try assumption.
    destruct Hin as [<-|[<-|[]]]; auto.
  - intros (before & scheme & x & Hs & E & Hne & Hx).
    exists before, (scheme ++ x). split; [exact E|].
    apply url_at_scheme; try assumption.
    destruct Hs as [->| ->]; simpl; auto.
Qed.

(** X2. Every anchor of a formatted message is a whole URL: [http://]
    or [https://], then at least one character, with no white space
    anywhere in it.  It shows the URL itself and opens it in a new
    tab without opener or referrer. *)
Theorem formatMessage_links_are_urls text children a :
  formatMessage (Some text) = Fragment children ->
  In (Link a) children ->
  safe_link a.
Proof.
  unfold formatMessage.
  destruct (text =? "")%string; [discriminate|].
  destruct (url_test (list_ascii_of_string text)); [|discriminate].
  intros H; inversion H; subst children; clear H.
  unfold split_urlRegex.
  apply (format_parts_shape _ _ (split_urlRegex_spec text)).
Qed.

Lemma formatMessage_links_are_urls_witness :
  safe_link {| href := "https://a.b/c?d=1"; target := "_blank";
               rel := "noopener noreferrer"; textContent := "https://a.b/c?d=1";
               style_color := "#a0eac0"; style_textDecoration := "underline" |}.
Proof.
  apply (formatMessage_links_are_urls "see https://a.b/c?d=1 now"
           [TextNode "see ";
            Link {| href := "https://a.b/c?d=1"; target := "_blank";
                    rel := "noopener noreferrer";
                    textContent := "https://a.b/c?d=1";
                    style_color := "#a0eac0";
                    style_textDecoration := "underline" |};
            TextNode " now"]).
  - reflexivity.
  - right; left; reflexivity.
Defined.

(** X3. A formatted message is text nodes and anchors in turn, from a
    text node to a text node (an empty one where a URL begins or ends
    the message), and no text node holds a URL: every URL of the
    message became an anchor. *)
Theorem formatMessage_text_nodes_hold_no_url text children :
  formatMessage (Some text) = Fragment children ->
  Alternating children /\
  forall data, In (TextNode data) children -> ~ contains_url data.
Proof.
  unfold formatMessage.
  destruct (text =? "")%string; [discriminate|].
  destruct (url_test (list_ascii_of_string text)); [|discriminate].
  intros H; inversion H; subst children; clear H.
  unfold split_urlRegex.
  destruct (format_parts_shape _ _ (split_urlRegex_spec text))
    as (Halt & _ & Htext & _).
  split; [exact Halt|].
  intros data Hin Hurl. apply url_test_contains in Hurl.
  rewrite (Htext data Hin) in Hurl. discriminate.
Qed.

Lemma formatMessage_text_nodes_hold_no_url_witness :
  Alternating
    [TextNode "";
     Link {| href := "http://x.y"; target := "_blank";
             rel := "noopener noreferrer"; textContent := "http://x.y";
             style_color := "#a0eac0"; style_textDecoration := "underline" |};
     TextNode " https://"] /\
  forall data,
    In (TextNode data)
      [TextNode "";
       Link {| href := "http://x.y"; target := "_blank";
               rel := "noopener noreferrer"; textContent := "http://x.y";
               style_color := "#a0eac0"; style_textDecoration := "underline" |};
       TextNode " https://"] ->
    ~ contains_url data.
Proof.
  apply (formatMessage_text_nodes_hold_no_url "http://x.y https://").
  reflexivity.
Defined.

(** X4. A message is cut into nodes exactly when it holds [http://] or
    [https://] followed by a character that is not white space, and
    the fragment then has an anchor; any other message, [http:// x]
    or [HTTP://x] for instance, is returned as it is. *)
Theorem formatMessage_links_iff_url text :
  (contains_url text ->
   exists children a,
     formatMessage (Some text) = Fragment children /\ In (Link a) children) /\
  (~ contains_url text -> formatMessage (Some text) = Unformatted (Some text)).
Proof.
  split.
  - intros H. pose proof H as Htest. apply url_test_contains in Htest.
    unfold formatMessage.
    destruct (String.eqb_spec text "") as [->|_].
    { simpl in Htest. discriminate. }
    rewrite Htest.
    destruct (format_parts_shape _ _ (split_urlRegex_spec text))
      as (_ & _ & _ & Hlink).
    destruct Hlink as [a Ha].
    { apply (url_test_split_has_match _ _ (split_urlRegex_spec text) Htest). }
    eexists _, a. split; [reflexivity | exact Ha].
  - intros H. unfold formatMessage.
    destruct (text =? "")%string; [reflexivity|].
    destruct (url_test (list_ascii_of_string text)) eqn:E; [|reflexivity].
    exfalso. apply H. apply url_test_contains. exact E.
Qed.

Lemma formatMessage_links_iff_url_witness :
  (exists children a,
     formatMessage (Some "om https://a.b") = Fragment children /\
     In (Link a) children) /\
  formatMessage (Some "http:// x HTTP://y") = Unformatted (Some "http:// x HTTP://y").
Proof.
  split.
  - apply (formatMessage_links_iff_url "om https://a.b").
    apply url_test_contains. reflexivity.
  - apply (formatMessage_links_iff_url "http:// x HTTP://y").
    intros H. apply url_test_contains in H. discriminate H.
Defined.

(** ** Runs *)

Example url_in_a_sentence :
  map node_text
    match formatMessage (Some "Read https://a.b/c?d=1, then rest.") with
    | Fragment children => children
    | Unformatted _ => []
    end
  = ["Read "; "https://a.b/c?d=1,"; " then rest."].
Proof. reflexivity. Qed.

Example url_alone :
  split_urlRegex "http://x.y" = [""; "http://x.y"; ""].
Proof. reflexivity. Qed.

Example two_urls :
  split_urlRegex "https://a http://b" = [""; "https://a"; " "; "http://b"; ""].
Proof. reflexivity. Qed.

Example scheme_without_host :
  formatMessage (Some "http:// x") = Unformatted (Some "http:// x").
Proof. reflexivity. Qed.

Example url_ends_at_no_break_space :
  split_urlRegex "http://x y" = [""; "http://x"; " y"].
Proof. reflexivity. Qed.

End FormatFacts.

(* ================================================================== *)
(** * Further properties of the relay                               *)
(* ================================================================== *)

Module RelayEdges.
Import Js JsFacts Relay RelayFacts.

(** ** Upstream answers with a 2xx status *)

(** X5. When the upstream answers 2xx with at least one choice that
    has a message, the reply is 200 and carries the content of the
    first choice and the usage as they came; further choices are not
    looked at. *)
Theorem first_choice_is_relayed env body call first others u :
  fst (api_chat env body) = Some call ->
  axios_post env call =
    AxiosResolved (Some {| choices := Some (Some first :: others); usage := u |}) ->
  snd (api_chat env body) =
  {| http_status := 200; reply_success := true;
     reply_content := first; reply_usage := u;
     reply_timestamp := Some (now env);
     reply_error := None; reply_code := None; reply_fallback := None |}.
Proof.
  intros Hcall Hpost.
  destruct (api_chat_cases env body) as [E|[E|[call' E]]];
    rewrite E in *; simpl in Hcall; try discriminate.
  inversion Hcall; subst call'; clear Hcall. simpl.
  rewrite Hpost. reflexivity.
Qed.

Lemma first_choice_is_relayed_witness :
  let env := {| axios_post := fun _ =>
                  AxiosResolved
                    (Some {| choices := Some [Some (JStr "Om."); Some (JStr "Tat sat.")];
                             usage := JNull |});
                random := 0; now := "2024-01-01T00:00:00.000Z" |} in
  snd (api_chat env (request [user_message "Namaste"])) =
  {| http_status := 200; reply_success := true;
     reply_content := JStr "Om."; reply_usage := JNull;
     reply_timestamp := Some "2024-01-01T00:00:00.000Z";
     reply_error := None; reply_code := None; reply_fallback := None |}.
Proof.
  intros env.
  apply (first_choice_is_relayed env (request [user_message "Namaste"])
           {| chatMessages := [persona; user_message "Namaste"];
              temperature := JNum (7 # 10) |}
           (JStr "Om.") [Some (JStr "Tat sat.")] JNull).
  - reflexivity.
  - reflexivity.
Defined.

(** X6. When the upstream answers 2xx with a body that has no data, no
    choices, an empty list of choices or a first choice without
    message, the failure is reported as NETWORK_ERROR, with status 503
    and the text of an unreachable upstream. *)
Theorem malformed_completion_is_network_error env body call data :
  fst (api_chat env body) = Some call ->
  axios_post env call = AxiosResolved data ->
  ~ has_completion data ->
  let reply := snd (api_chat env body) in
  http_status reply = 503 /\
  reply_success reply = false /\
  reply_code reply = Some "NETWORK_ERROR" /\
  reply_error reply = Some "Network error. Could not reach DeepSeek API.".
Proof.
  intros Hcall Hpost Hbad reply. subst reply.
  destruct (api_chat_cases env body) as [E|[E|[call' E]]];
    rewrite E in *; simpl in Hcall; try discriminate.
  inversion Hcall; subst call'; clear Hcall. simpl.
  rewrite Hpost.
  destruct data as [[[[|[first|] others]|] u]|];
    try (repeat split; reflexivity).
  exfalso. apply Hbad. exists first, others, u. reflexivity.
Qed.

Lemma malformed_completion_is_network_error_witness :
  let env := {| axios_post := fun _ =>
                  AxiosResolved (Some {| choices := Some []; usage := JNull |});
                random := 0; now := "2024-01-01T00:00:00.000Z" |} in
  let reply := snd (api_chat env (request [user_message "Namaste"])) in
  http_status reply = 503 /\
  reply_success reply = false /\
  reply_code reply = Some "NETWORK_ERROR" /\
  reply_error reply = Some "Network error. Could not reach DeepSeek API.".
Proof.
  intros env.
  apply (malformed_completion_is_network_error env
           (request [user_message "Namaste"])
           {| chatMessages := [persona; user_message "Namaste"];
              temperature := JNum (7 # 10) |}
           (Some {| choices := Some []; usage := JNull |})).
  - reflexivity.
  - reflexivity.
  - intros (first & others & u & H). discriminate H.
Defined.

(** ** The shape of every reply *)

(** X7. Whatever the request and the upstream do, the reply has status
    200, 400, 500 or 503; it reports success exactly with 200; and the
    upstream was called exactly for the replies 200 and 503. *)
Theorem replies_and_upstream_calls env body :
  let call := fst (api_chat env body) in
  let reply := snd (api_chat env body) in
  In (http_status reply) [200; 400; 500; 503] /\
  (reply_success reply = true <-> http_status reply = 200) /\
  (call <> None <-> http_status reply = 200 \/ http_status reply = 503).
Proof.
  cbn zeta.
  destruct (api_chat_cases env body) as [E|[E|[call E]]]; rewrite E; simpl.
  - split; [tauto|]. split; split; intros H; try discriminate;
      try contradiction; destruct H; discriminate.
  - split; [tauto|]. split; split; intros H; try discriminate;
      try contradiction; destruct H; discriminate.
  - unfold respond.
    destruct (success (generateResponse (axios_post env call))); simpl.
    + split; [tauto|]. split; split; intros; auto; discriminate.
    + split; [tauto|]. split; split; intros H; auto; discriminate.
Qed.

(** ** Prompt injection, further *)

Lemma some_system_found pre sys post :
  Forall (fun m => nullish m = false) pre ->
  system_role sys = true ->
  some_system (pre ++ sys :: post) = Normal true.
Proof.
  intros Hpre Hsys. induction Hpre as [|m pre Hm _ IH]; simpl.
  - assert (Hobj : nullish sys = false) by (destruct sys; auto; discriminate).
    rewrite (is_system_object sys Hobj), Hsys. reflexivity.
  - rewrite (is_system_object m Hm); simpl.
    destruct (system_role m); [reflexivity | exact IH].
Qed.

Lemma some_system_throws pre nul post :
  Forall (fun m => nullish m = false) pre ->
  existsb system_role pre = false ->
  nullish nul = true ->
  some_system (pre ++ nul :: post) = Throw TypeError.
Proof.
  intros Hpre Hnone Hnul. induction Hpre as [|m pre Hm _ IH]; simpl in *.
  - destruct nul; try discriminate; reflexivity.
  - apply orb_false_elim in Hnone as [Hm' Hrest].
    rewrite (is_system_object m Hm), Hm'; simpl. apply IH; exact Hrest.
Qed.

(** X8. The search for a system message stops at the first one: a
    [null] entry after it is forwarded with the rest, while a [null]
    entry met before any system message makes the request fail with
    SERVER_ERROR, without an upstream call. *)
Theorem null_entry_matters_only_before_system_message env body msgs :
  get body "messages" = Normal (JArr msgs) ->
  (forall pre sys post,
     msgs = (pre ++ sys :: post)%list ->
     Forall (fun m => nullish m = false) pre ->
     system_role sys = true ->
     sent_upstream env body = Some msgs) /\
  (forall pre nul post,
     msgs = (pre ++ nul :: post)%list ->
     Forall (fun m => nullish m = false) pre ->
     existsb system_role pre = false ->
     nullish nul = true ->
     api_chat env body = (None, server_error)).
Proof.
  intros Hget.
  destruct (prepare_array body msgs Hget) as [t Hprep].
  split.
  - intros pre sys post -> Hpre Hsys.
    unfold sent_upstream, api_chat. rewrite Hprep.
    rewrite (some_system_found pre sys post Hpre Hsys). reflexivity.
  - intros pre nul post -> Hpre Hnone Hnul.
    unfold api_chat. rewrite Hprep.
    rewrite (some_system_throws pre nul post Hpre Hnone Hnul). reflexivity.
Qed.

Lemma null_entry_matters_only_before_system_message_witness :
  sent_upstream rate_limited_env (request [system_message "Be brief."; JNull])
    = Some [system_message "Be brief."; JNull] /\
  api_chat rate_limited_env (request [JNull; system_message "Be brief."])
    = (None, server_error).
Proof.
  split.
  - apply (null_entry_matters_only_before_system_message rate_limited_env
             (request [system_message "Be brief."; JNull])
             [system_message "Be brief."; JNull] eq_refl)
      with (pre := []) (sys := system_message "Be brief.") (post := [JNull]).
    + reflexivity.
    + constructor.
    + reflexivity.
  - apply (null_entry_matters_only_before_system_message rate_limited_env
             (request [JNull; system_message "Be brief."])
             [JNull; system_message "Be brief."] eq_refl)
      with (pre := []) (nul := JNull) (post := [system_message "Be brief."]).
    + reflexivity.
    + constructor.
    + reflexivity.
    + reflexivity.
Defined.

(** X9. Injection is idempotent: a list the relay sent upstream, sent
    to the relay again as the messages of a request, reaches the
    upstream unchanged. *)
Theorem injection_is_idempotent env env' body body' sent :
  sent_upstream env body = Some sent ->
  get body' "messages" = Normal (JArr sent) ->
  sent_upstream env' body' = Some sent.
Proof.
  intros Hsent Hget'.
  assert (Hsys : some_system sent = Normal true).
  { unfold sent_upstream, api_chat, prepare in Hsent.
    destruct (get body "messages") as [m|e]; simpl in Hsent; [|discriminate].
    destruct (get body "temperature") as [t|e]; simpl in Hsent; [|discriminate].
    destruct (negb (truthy m) || negb (isArray m)); simpl in Hsent; [discriminate|].
    destruct m as [| | | | |msgs|]; simpl in Hsent; try discriminate.
    destruct (some_system msgs) as [b|e] eqn:Hs; simpl in Hsent; [|discriminate].
    inversion Hsent; subst sent; clear Hsent.
    destruct b; [exact Hs | reflexivity]. }
  destruct (prepare_array body' sent Hget') as [t Hprep].
  unfold sent_upstream, api_chat. rewrite Hprep, Hsys. reflexivity.
Qed.

Lemma injection_is_idempotent_witness :
  sent_upstream rate_limited_env (request [persona; user_message "Namaste"])
    = Some [persona; user_message "Namaste"].
Proof.
  apply (injection_is_idempotent rate_limited_env rate_limited_env
           (request [user_message "Namaste"])
           (request [persona; user_message "Namaste"])).
  - reflexivity.
  - reflexivity.
Defined.

(** X10. The temperature of the request is handed to the upstream call
    as it came, whatever it is ([null], a text, any number); only a
    request without the field gets 0.7. *)
Theorem temperature_is_forwarded_unchecked env body call t :
  fst (api_chat env body) = Some call ->
  get body "temperature" = Normal t ->
  (t = JUndefined -> temperature call = JNum (7 # 10)) /\
  (t <> JUndefined -> temperature call = t).
Proof.
  unfold api_chat, prepare. intros Hcall Ht.
  destruct (get body "messages") as [m|e]; simpl in Hcall; [|discriminate].
  rewrite Ht in Hcall; simpl in Hcall.
  destruct (negb (truthy m) || negb (isArray m)); simpl in Hcall; [discriminate|].
  destruct m as [| | | | |msgs|]; simpl in Hcall; try discriminate.
  destruct (some_system msgs) as [b|e]; simpl in Hcall; [|discriminate].
  inversion Hcall; subst call; clear Hcall. simpl.
  split.
  - intros ->. reflexivity.
  - intros Hne. destruct t; try reflexivity. contradiction.
Qed.

Lemma temperature_is_forwarded_unchecked_witness :
  let body := JObj [("messages", JArr [user_message "Namaste"]);
                    ("temperature", JNull)] in
  let call := {| chatMessages := [persona; user_message "Namaste"];
                 temperature := JNull |} in
  fst (api_chat rate_limited_env body) = Some call /\
  (JNull <> JUndefined -> temperature call = JNull).
Proof.
  intros body call. split; [reflexivity|].
  apply (temperature_is_forwarded_unchecked rate_limited_env body call JNull).
  - reflexivity.
  - reflexivity.
Defined.

End RelayEdges.

(* ================================================================== *)
(** * Properties of the page as events arrive                       *)
(* ================================================================== *)

Module SessionFacts.
Import Js JsFacts Client ClientFacts.
Local Open Scope list_scope.

(** ** One submission *)

Lemma resume_settled outcome rnd g :
  exists text, handleUserMessage_resume outcome rnd g = settled text g.
Proof.
  unfold handleUserMessage_resume, handleUserMessage_try.
  destruct (sendToBackend_settle outcome) as [[response|]|e].
  - destruct (success response).
    + destruct (data_content response) as [text|]; simpl.
      * exists text. reflexivity.
      * exists networkErrorMessage. reflexivity.
    + unfold handleAPIError.
      destruct (if present (data_fallback response)
                then data_fallback response
                else random_pick errorMessages rnd) as [text|]; simpl.
      * exists text. reflexivity.
      * exists networkErrorMessage. reflexivity.
  - exists networkErrorMessage. reflexivity.
  - exists networkErrorMessage. reflexivity.
Qed.

(** X11. However the request ends, and whatever [Math.random()]
    returns, the client shows exactly one new assistant bubble, pushes
    the same text as one assistant message, enables the controls,
    hides the typing indicator and clears the busy mark; the input
    text, the session id and the connection status are left alone. *)
Theorem every_settlement_shows_one_assistant_message outcome rnd g :
  let g' := handleUserMessage_resume outcome rnd g in
  (exists text, shows text g g') /\
  isProcessing g' = false /\
  sendBtn_disabled g' = false /\ userInput_disabled g' = false /\
  typingArea_hidden g' = true /\
  userInput_value g' = userInput_value g /\
  sessionId g' = sessionId g /\
  connection_state g' = connection_state g /\
  reconnectAttempts g' = reconnectAttempts g.
Proof.
  cbn zeta. destruct (resume_settled outcome rnd g) as [text ->].
  split; [exists text; split; reflexivity|]. repeat split.
Qed.

(** X12. A submission that goes through and then settles adds two
    messages to the history, the trimmed input as a user message and
    then one assistant message, and the two matching bubbles to the
    chat window; the input is left empty and enabled. *)
Theorem completed_submission_adds_two_messages g g' request outcome rnd :
  handleUserMessage_begin g = (g', Some request) ->
  let g'' := handleUserMessage_resume outcome rnd g' in
  let question := trim (userInput_value g) in
  exists answer,
    messageHistory g'' =
      messageHistory g ++ [{| role := "user"; content := question |};
                           {| role := "assistant"; content := answer |}] /\
    chatWindow g'' =
      chatWindow g ++ [{| bubble_text := question; bubble_isUser := true |};
                       {| bubble_text := answer; bubble_isUser := false |}] /\
    question <> "" /\
    userInput_value g'' = "" /\ userInput_disabled g'' = false /\
    isProcessing g'' = false.
Proof.
  intros Hbegin. cbn zeta.
  destruct (begin_inversion _ _ _ Hbegin) as [Htext Hbusy].
  destruct (begin_proceeds g Htext Hbusy) as (g1 & E & Hhist & Hchat & _).
  assert (Hinput : userInput_value g1 = "").
  { unfold handleUserMessage_begin in E.
    apply String.eqb_neq in Htext. rewrite Htext, Hbusy in E. simpl in E.
    inversion E. reflexivity. }
  rewrite E in Hbegin. inversion Hbegin; subst g1 request; clear Hbegin.
  destruct (resume_settled outcome rnd g') as [answer ->].
  exists answer. unfold settled; simpl.
  rewrite Hhist, Hchat, <- !app_assoc. simpl.
  repeat split; try assumption.
Qed.

Lemma completed_submission_adds_two_messages_witness :
  exists answer,
    messageHistory
      (handleUserMessage_resume server_error_answer 0
         (fst (handleUserMessage_begin (asking " What is dharma? ")))) =
      messageHistory (asking " What is dharma? ") ++
      [{| role := "user"; content := "What is dharma?" |};
       {| role := "assistant"; content := answer |}] /\
    chatWindow
      (handleUserMessage_resume server_error_answer 0
         (fst (handleUserMessage_begin (asking " What is dharma? ")))) =
      chatWindow (asking " What is dharma? ") ++
      [{| bubble_text := "What is dharma?"; bubble_isUser := true |};
       {| bubble_text := answer; bubble_isUser := false |}] /\
    "What is dharma?" <> "" /\
    userInput_value
      (handleUserMessage_resume server_error_answer 0
         (fst (handleUserMessage_begin (asking " What is dharma? ")))) = "" /\
    userInput_disabled
      (handleUserMessage_resume server_error_answer 0
         (fst (handleUserMessage_begin (asking " What is dharma? ")))) = false /\
    isProcessing
      (handleUserMessage_resume server_error_answer 0
         (fst (handleUserMessage_begin (asking " What is dharma? ")))) = false.
Proof.
  apply (completed_submission_adds_two_messages
           (asking " What is dharma? ")
           (fst (handleUserMessage_begin (asking " What is dharma? ")))
           (sendToBackend_request
              (fst (handleUserMessage_begin (asking " What is dharma? "))))
           server_error_answer 0).
  reflexivity.
Defined.

(** ** Sequences of events *)

Lemma growth_none g g' :
  chatWindow g' = chatWindow g -> messageHistory g' = messageHistory g ->
  sessionId g' = sessionId g -> Growth g g'.
Proof.
  intros Hc Hh Hs.
  apply (grown g g' [] []); rewrite ?app_nil_r; auto.
Qed.

Lemma growth_refl g : Growth g g.
Proof. apply growth_none; reflexivity. Qed.

Lemma growth_trans g1 g2 g3 : Growth g1 g2 -> Growth g2 g3 -> Growth g1 g3.
Proof.
  intros [b1 m1 Hc1 Hh1 Hm1 Hr1 Hs1] [b2 m2 Hc2 Hh2 Hm2 Hr2 Hs2].
  apply (grown g1 g3 (b1 ++ b2) (m1 ++ m2)).
  - rewrite Hc2, Hc1, app_assoc. reflexivity.
  - rewrite Hh2, Hh1, app_assoc. reflexivity.
  - apply Forall2_app; assumption.
  - apply Forall_app; split; assumption.
  - congruence.
Qed.

(** [checkConnection] touches the status and the attempt count only. *)
Lemma checkConnection_frame g p :
  let g' := fst (checkConnection g p) in
  chatWindow g' = chatWindow g /\
  messageHistory g' = messageHistory g /\
  sessionId g' = sessionId g /\
  isProcessing g' = isProcessing g /\
  sendBtn_disabled g' = sendBtn_disabled g /\
  userInput_disabled g' = userInput_disabled g /\
  typingArea_hidden g' = typingArea_hidden g /\
  userInput_value g' = userInput_value g /\
  maxReconnectAttempts g' = maxReconnectAttempts g.
Proof.
  unfold checkConnection.
  destruct (probe_healthy p); [repeat split|].
  cbn [set_reconnectAttempts updateConnectionStatus reconnectAttempts
       maxReconnectAttempts].
  destruct (reconnectAttempts g + 1 <=? maxReconnectAttempts g); repeat split.
Qed.

Lemma begin_cases g :
  handleUserMessage_begin g = (g, None) \/
  exists g',
    handleUserMessage_begin g = (g', Some (sendToBackend_request g')) /\
    isProcessing g = false /\ trim (userInput_value g) <> "" /\
    messageHistory g' =
      messageHistory g ++
      [{| role := "user"; content := trim (userInput_value g) |}] /\
    chatWindow g' =
      chatWindow g ++
      [{| bubble_text := trim (userInput_value g); bubble_isUser := true |}] /\
    isProcessing g' = true /\
    sessionId g' = sessionId g.
Proof.
  destruct (String.eqb_spec (trim (userInput_value g)) "") as [E|E].
  - left. unfold handleUserMessage_begin.
    rewrite E. reflexivity.
  - destruct (isProcessing g) eqn:B.
    + left. unfold handleUserMessage_begin. rewrite B, orb_true_r. reflexivity.
    + right. destruct (begin_proceeds g E B) as (g' & H).
      exists g'. tauto.
Qed.

Lemma begin_growth g : Growth g (fst (handleUserMessage_begin g)).
Proof.
  destruct (begin_cases g) as [E|(g' & E & _ & _ & Hh & Hc & _ & Hs)];
    rewrite E; simpl.
  - apply growth_refl.
  - apply (grown g g'
             [{| bubble_text := trim (userInput_value g); bubble_isUser := true |}]
             [{| role := "user"; content := trim (userInput_value g) |}]);
      try assumption.
    + repeat constructor.
    + constructor; [left; reflexivity | constructor].
Qed.

Lemma keypress_cases key g :
  keypress key g = (g, None) \/ keypress key g = handleUserMessage_begin g.
Proof.
  unfold keypress.
  destruct ((key =? "Enter")%string && negb (isProcessing g)); auto.
Qed.

Lemma fire_growth e g : Growth g (fire e g).
Proof.
  destruct e as [p| |text|key| |outcome rnd]; simpl.
  - destruct (checkConnection_frame g p) as (Hc & Hh & Hs & _).
    apply growth_none; assumption.
  - eapply (grown g (addWelcomeMessage g) [_] [_]);
      [reflexivity | reflexivity | | | reflexivity].
    + repeat constructor.
    + constructor; [right; reflexivity | constructor].
  - destruct (userInput_disabled g); [apply growth_refl|].
    apply growth_none; reflexivity.
  - destruct (keypress_cases key g) as [E|E]; rewrite E.
    + apply growth_refl.
    + apply begin_growth.
  - apply begin_growth.
  - destruct (isProcessing g); [|apply growth_refl].
    destruct (resume_settled outcome rnd g) as [text ->].
    apply (grown g (settled text g)
             [{| bubble_text := text; bubble_isUser := false |}]
             [{| role := "assistant"; content := text |}]);
      try reflexivity.
    + repeat constructor.
    + constructor; [right; reflexivity | constructor].
Qed.

Lemma run_cons e events g : run (e :: events) g = run events (fire e g).
Proof. reflexivity. Qed.

Lemma run_growth events : forall g, Growth g (run events g).
Proof.
  induction events as [|e events IH]; intros g.
  - apply growth_refl.
  - rewrite run_cons.
    apply (growth_trans g (fire e g)); [apply fire_growth | apply IH].
Qed.

(** X13. Whatever happens to the page, the chat window and the history
    only grow, by bubbles and messages that correspond one to one (the
    same text, in the same order, a user bubble for a user message),
    and every message added has the role user or assistant. *)
Theorem window_and_history_grow_together events g :
  exists bubbles messages,
    chatWindow (run events g) = chatWindow g ++ bubbles /\
    messageHistory (run events g) = messageHistory g ++ messages /\
    Forall2 mirrors bubbles messages /\
    Forall client_role messages.
Proof.
  destruct (run_growth events g) as [b m Hc Hh Hm Hr _].
  exists b, m. auto.
Qed.

Lemma begin_controls g :
  controls_follow_busy g ->
  controls_follow_busy (fst (handleUserMessage_begin g)).
Proof.
  intros H. unfold handleUserMessage_begin.
  destruct ((trim (userInput_value g) =? "")%string || isProcessing g);
    [exact H | repeat split].
Qed.

Lemma fire_controls e g :
  controls_follow_busy g -> controls_follow_busy (fire e g).
Proof.
  intros H. destruct e as [p| |text|key| |outcome rnd]; simpl.
  - destruct (checkConnection_frame g p) as (_ & _ & _ & Hb & H1 & H2 & H3 & _).
    unfold controls_follow_busy. rewrite Hb, H1, H2, H3. exact H.
  - exact H.
  - destruct (userInput_disabled g); exact H.
  - destruct (keypress_cases key g) as [E|E]; rewrite E;
      [exact H | apply begin_controls; exact H].
  - apply begin_controls; exact H.
  - destruct (isProcessing g); [|exact H].
    destruct (resume_settled outcome rnd g) as [text ->]. repeat split.
Qed.

(** X14. On a page whose controls are disabled, and whose typing
    indicator is shown, exactly while a submission is in flight, this
    stays so whatever happens: the send button and the input are
    disabled from an accepted submission to its settlement and are
    enabled otherwise. *)
Theorem controls_stay_tied_to_busy events g :
  controls_follow_busy g -> controls_follow_busy (run events g).
Proof.
  revert g. induction events as [|e events IH]; intros g H; [exact H|].
  rewrite run_cons. apply IH. apply fire_controls. exact H.
Qed.

Lemma controls_stay_tied_to_busy_witness :
  controls_follow_busy
    (run [ConnectionChecked ProbeRejected; Welcomed; Typed "What is dharma?";
          KeyPressed "Enter"; SendClicked]
         (constructed "guruji_1_abc")).
Proof.
  apply (controls_stay_tied_to_busy
           [ConnectionChecked ProbeRejected; Welcomed; Typed "What is dharma?";
            KeyPressed "Enter"; SendClicked]
           (constructed "guruji_1_abc")).
  repeat split.
Defined.

(** ** The requests that leave *)

Lemma requests_cons e events g :
  requests (e :: events) g =
  match sent_by e g with
  | Some request => request :: requests events (fire e g)
  | None => requests events (fire e g)
  end.
Proof. reflexivity. Qed.

Lemma sent_by_cases e g :
  sent_by e g = None \/
  exists g', handleUserMessage_begin g = (g', Some (sendToBackend_request g')) /\
             sent_by e g = Some (sendToBackend_request g') /\ fire e g = g'.
Proof.
  destruct e as [p| |text|key| |outcome rnd]; simpl; auto.
  - destruct (keypress_cases key g) as [E|E]; rewrite E; [left; reflexivity|].
    destruct (begin_cases g) as [B|(g' & B & _)]; rewrite B;
      [left; reflexivity | right; exists g'; auto].
  - destruct (begin_cases g) as [B|(g' & B & _)]; rewrite B;
      [left; reflexivity | right; exists g'; auto].
Qed.

Lemma begin_sends g g' :
  handleUserMessage_begin g = (g', Some (sendToBackend_request g')) ->
  isProcessing g = false /\ isProcessing g' = true.
Proof.
  intros B. destruct (begin_inversion _ _ _ B) as [Htext Hidle].
  destruct (begin_proceeds g Htext Hidle) as (g1 & E1 & _ & _ & Hbusy & _).
  rewrite B in E1. inversion E1; subst g1. auto.
Qed.

(** An event sends nothing and leaves the busy mark, or sends a request
    and sets the mark, or is the settlement that clears it. *)
Lemma event_cases e g :
  (sent_by e g = None /\ isProcessing (fire e g) = isProcessing g) \/
  (exists request, sent_by e g = Some request /\ is_settlement e = false /\
                   isProcessing g = false /\ isProcessing (fire e g) = true) \/
  (sent_by e g = None /\ is_settlement e = true /\
   isProcessing g = true /\ isProcessing (fire e g) = false).
Proof.
  assert (Hbegin :
    (snd (handleUserMessage_begin g) = None /\
     isProcessing (fst (handleUserMessage_begin g)) = isProcessing g) \/
    (exists request, snd (handleUserMessage_begin g) = Some request /\
       isProcessing g = false /\
       isProcessing (fst (handleUserMessage_begin g)) = true)).
  { destruct (begin_cases g) as [B|(g' & B & _)].
    - left. rewrite B. split; reflexivity.
    - right. destruct (begin_sends g g' B) as [H1 H2].
      rewrite B. eexists; repeat split; assumption. }
  destruct e as [p| |text|key| |outcome rnd]; simpl.
  - left. split; [reflexivity | apply (checkConnection_frame g p)].
  - left. split; reflexivity.
  - left. split; [reflexivity|].
    destruct (userInput_disabled g); reflexivity.
  - destruct (keypress_cases key g) as [E|E]; rewrite E.
    + left. split; reflexivity.
    + destruct Hbegin as [H|(r & H1 & H2 & H3)]; [left; exact H|].
      right; left. exists r. auto.
  - destruct Hbegin as [H|(r & H1 & H2 & H3)]; [left; exact H|].
    right; left. exists r. auto.
  - destruct (isProcessing g) eqn:B.
    + right; right. repeat split.
    + left. split; [reflexivity | exact B].
Qed.

(** X15. Single flight: from an idle page, the requests sent never
    outnumber the settlements by more than one; from a busy page, they
    never outnumber them at all.  A second request leaves only after
    the first has settled. *)
Theorem requests_wait_for_settlements events g :
  (length (requests events g) <=
   length (filter is_settlement events) + (if isProcessing g then 0 else 1))%nat.
Proof.
  revert g. induction events as [|e events IH]; intros g.
  - simpl. lia.
  - rewrite requests_cons. specialize (IH (fire e g)). cbn [filter].
    destruct (event_cases e g)
      as [[E Hb]|[(r & E & Hs & Hb & Hb')|(E & Hs & Hb & Hb')]]; rewrite E.
    + rewrite Hb in IH. destruct (is_settlement e); simpl; lia.
    + rewrite Hs, Hb. rewrite Hb' in IH. simpl. lia.
    + rewrite Hs, Hb. rewrite Hb' in IH. simpl. lia.
Qed.

Lemma Forall_skipn_kept {A} (P : A -> Prop) k : forall l,
  Forall P l -> Forall P (skipn k l).
Proof.
  induction k as [|k IH]; intros l H; [exact H|].
  destruct l as [|x l]; [constructor|].
  simpl. apply IH. inversion H; assumption.
Qed.

Lemma begin_request_well_formed g g' :
  Forall client_role (messageHistory g) ->
  handleUserMessage_begin g = (g', Some (sendToBackend_request g')) ->
  well_formed_request (sessionId g) (sendToBackend_request g').
Proof.
  intros Hroles B.
  destruct (begin_inversion _ _ _ B) as [Htext Hidle].
  destruct (begin_proceeds g Htext Hidle) as (g1 & E1 & Hh & _ & _ & Hs).
  rewrite B in E1. inversion E1; subst g1; clear E1.
  unfold well_formed_request, sendToBackend_request; simpl.
  rewrite slice_last_ten, Hh.
  set (h := messageHistory g) in *.
  set (m := {| role := "user"; content := trim (userInput_value g) |}).
  assert (Hk : (length (h ++ [m]) - 10 <= length h)%nat)
    by (rewrite length_app; simpl; lia).
  assert (Hsplit : skipn (length (h ++ [m]) - 10) (h ++ [m]) =
                   skipn (length (h ++ [m]) - 10) h ++ [m]).
  { rewrite skipn_app.
    replace (length (h ++ [m]) - 10 - length h)%nat with 0%nat by lia.
    reflexivity. }
  split; [rewrite length_skipn, length_app; simpl; lia|].
  split; [exists (skipn (length (h ++ [m]) - 10) h), (trim (userInput_value g));
          split; [exact Hsplit | exact Htext]|].
  split; [|split; [exact Hs | reflexivity]].
  apply Forall_skipn_kept. apply Forall_app. split; [exact Hroles|].
  constructor; [left; reflexivity | constructor].
Qed.

Lemma fire_keeps_roles e g :
  Forall client_role (messageHistory g) ->
  Forall client_role (messageHistory (fire e g)) /\
  sessionId (fire e g) = sessionId g.
Proof.
  intros H. destruct (fire_growth e g) as [b m _ Hh _ Hr Hs].
  split; [|exact Hs]. rewrite Hh. apply Forall_app; split; assumption.
Qed.

(** X16. On a page whose history holds user and assistant messages
    only, every chat request that leaves carries at most ten messages,
    all of them user or assistant messages (never a system message),
    the last one being the text just submitted, which is not empty;
    it carries the session's id and the temperature 0.7. *)
Theorem every_request_is_well_formed events g :
  Forall client_role (messageHistory g) ->
  Forall (well_formed_request (sessionId g)) (requests events g).
Proof.
  revert g. induction events as [|e events IH]; intros g Hroles.
  - constructor.
  - rewrite requests_cons.
    destruct (fire_keeps_roles e g Hroles) as [Hroles' Hs].
    specialize (IH (fire e g) Hroles'). rewrite Hs in IH.
    destruct (sent_by_cases e g) as [E|(g' & B & E & F)]; rewrite E;
      [exact IH|].
    constructor; [|exact IH].
    apply begin_request_well_formed; assumption.
Qed.

Lemma every_request_is_well_formed_witness :
  Forall (well_formed_request "guruji_1_abc")
    (requests [Welcomed; Typed "What is dharma?"; SendClicked;
               RequestSettled server_error_answer 0;
               Typed " And karma? "; KeyPressed "Enter"]
              (constructed "guruji_1_abc")).
Proof.
  apply (every_request_is_well_formed
           [Welcomed; Typed "What is dharma?"; SendClicked;
            RequestSettled server_error_answer 0;
            Typed " And karma? "; KeyPressed "Enter"]
           (constructed "guruji_1_abc")).
  constructor.
Defined.

(** ** Unloading the page *)

(** X17. Unloading sends nothing while the history holds at most one
    message (the welcome alone).  Once a submission was accepted on a
    page whose history was not empty, every later unload sends the
    whole history, however long, under the session's id. *)
Theorem unload_logs_whole_history now g :
  ((length (messageHistory g) <= 1)%nat -> logConversationEnd now g = None) /\
  (forall g' request events,
     messageHistory g <> [] ->
     handleUserMessage_begin g = (g', Some request) ->
     exists later,
       logConversationEnd now (run events g') =
       Some {| end_messages :=
                 messageHistory g ++
                 {| role := "user"; content := trim (userInput_value g) |} :: later;
               end_sessionId := sessionId g;
               end_timestamp := now |} /\
       messageHistory (run events g') =
         messageHistory g ++
         {| role := "user"; content := trim (userInput_value g) |} :: later).
Proof.
  split.
  - intros H. unfold logConversationEnd.
    destruct (Nat.ltb_spec 1 (length (messageHistory g))); [lia | reflexivity].
  - intros g' request events Hne B.
    destruct (begin_inversion _ _ _ B) as [Htext Hidle].
    destruct (begin_proceeds g Htext Hidle) as (g1 & E1 & Hh & _ & _ & Hs).
    rewrite B in E1. inversion E1; subst g1; clear E1.
    destruct (run_growth events g') as [b later _ Hh' _ _ Hs'].
    exists later.
    assert (Hall : messageHistory (run events g') =
                   messageHistory g ++
                   {| role := "user"; content := trim (userInput_value g) |} :: later).
    { rewrite Hh', Hh, <- app_assoc. reflexivity. }
    split; [|exact Hall].
    unfold logConversationEnd. rewrite Hs', Hs, Hall.
    destruct (Nat.ltb_spec 1
                (length (messageHistory g ++
                   {| role := "user"; content := trim (userInput_value g) |}
                   :: later))) as [_|Hshort]; [reflexivity|].
    exfalso. rewrite length_app in Hshort. simpl in Hshort.
    destruct (messageHistory g); [contradiction | simpl in Hshort; lia].
Qed.

Lemma unload_logs_whole_history_witness :
  logConversationEnd "2024-01-01T00:00:00.000Z"
    (addWelcomeMessage (constructed "guruji_1_abc")) = None /\
  exists later,
    logConversationEnd "2024-01-01T00:00:00.000Z"
      (run [RequestSettled server_error_answer 0]
           (fst (handleUserMessage_begin (asking "What is dharma?")))) =
    Some {| end_messages :=
              messageHistory (asking "What is dharma?") ++
              {| role := "user"; content := "What is dharma?" |} :: later;
            end_sessionId := "guruji_1_abc";
            end_timestamp := "2024-01-01T00:00:00.000Z" |} /\
    messageHistory
      (run [RequestSettled server_error_answer 0]
           (fst (handleUserMessage_begin (asking "What is dharma?")))) =
      messageHistory (asking "What is dharma?") ++
      {| role := "user"; content := "What is dharma?" |} :: later.
Proof.
  split.
  - apply (unload_logs_whole_history "2024-01-01T00:00:00.000Z"
             (addWelcomeMessage (constructed "guruji_1_abc"))).
    simpl. lia.
  - apply (proj2 (unload_logs_whole_history "2024-01-01T00:00:00.000Z"
                    (asking "What is dharma?"))
             (fst (handleUserMessage_begin (asking "What is dharma?")))
             (sendToBackend_request
                (fst (handleUserMessage_begin (asking "What is dharma?"))))
             [RequestSettled server_error_answer 0]).
    + discriminate.
    + reflexivity.
Defined.

(** ** Connectivity, further *)

Lemma begin_keeps_connection g :
  connection_state (fst (handleUserMessage_begin g)) = connection_state g /\
  statusText_textContent (fst (handleUserMessage_begin g)) = statusText_textContent g /\
  reconnectAttempts (fst (handleUserMessage_begin g)) = reconnectAttempts g.
Proof.
  unfold handleUserMessage_begin.
  destruct ((trim (userInput_value g) =? "")%string || isProcessing g);
    repeat split.
Qed.

Lemma fire_keeps_connection e g :
  is_connection_check e = false ->
  connection_state (fire e g) = connection_state g /\
  statusText_textContent (fire e g) = statusText_textContent g /\
  reconnectAttempts (fire e g) = reconnectAttempts g.
Proof.
  intros He. destruct e as [p| |text|key| |outcome rnd]; simpl;
    try discriminate.
  - repeat split.
  - destruct (userInput_disabled g); repeat split.
  - destruct (keypress_cases key g) as [E|E]; rewrite E;
      [repeat split | apply begin_keeps_connection].
  - apply begin_keeps_connection.
  - destruct (isProcessing g); [|repeat split].
    destruct (resume_settled outcome rnd g) as [text ->]. repeat split.
Qed.

(** X18. Only [checkConnection] touches the connection status: typing,
    submitting and the settlement of a chat request, failed or not,
    leave the status, its text and the attempt count as they were. *)
Theorem chat_leaves_connection_status events g :
  forallb (fun e => negb (is_connection_check e)) events = true ->
  connection_state (run events g) = connection_state g /\
  statusText_textContent (run events g) = statusText_textContent g /\
  reconnectAttempts (run events g) = reconnectAttempts g.
Proof.
  revert g. induction events as [|e events IH]; intros g H; [repeat split|].
  simpl in H. apply andb_prop in H as [He H].
  apply negb_true_iff in He.
  rewrite run_cons.
  destruct (IH (fire e g) H) as (H1 & H2 & H3).
  destruct (fire_keeps_connection e g He) as (F1 & F2 & F3).
  repeat split; congruence.
Qed.

Lemma chat_leaves_connection_status_witness :
  let connected :=
    fst (checkConnection (constructed "guruji_1_abc")
           (ProbeAnswered true (Some "healthy"))) in
  connection_state
    (run [Welcomed; Typed "What is dharma?"; SendClicked;
          RequestSettled FetchRejected 0] connected)
    = "status-indicator connected".
Proof.
  intros connected.
  apply (chat_leaves_connection_status
           [Welcomed; Typed "What is dharma?"; SendClicked;
            RequestSettled FetchRejected 0] connected).
  reflexivity.
Defined.

(** X19. The reconnection loop ends: from a state whose attempt count
    has not passed the ceiling, at most ceiling - attempts + 1 probes
    are issued, in the order of the answers, and if an answer is left
    unused the loop stopped in connected or in error. *)
Theorem connect_is_bounded probes : forall g,
  reconnectAttempts g <= maxReconnectAttempts g ->
  exists used,
    probes = used ++ snd (connect g probes) /\
    Z.of_nat (length used) <= maxReconnectAttempts g - reconnectAttempts g + 1 /\
    (snd (connect g probes) <> [] ->
     connection_state (fst (connect g probes)) = "status-indicator connected" \/
     connection_state (fst (connect g probes)) = "status-indicator error").
Proof.
  induction probes as [|p rest IH]; intros g Hle.
  - exists []. simpl. repeat split; [lia | intros H; contradiction].
  - rewrite connect_step.
    destruct (probe_healthy p) eqn:Hp.
    + destruct (checkConnection_healthy g p Hp) as (Hs & _ & Ht).
      rewrite Ht. exists [p]. simpl. repeat split; [lia | auto].
    + destruct (Z.lt_ge_cases (reconnectAttempts g) (maxReconnectAttempts g))
        as [Hlt|Hge].
      * destruct (checkConnection_retry g p Hp Hlt) as (_ & Ha & Hm & Ht).
        rewrite Ht.
        destruct (IH (fst (checkConnection g p))) as (used & Hu & Hlen & Hend);
          [rewrite Ha, Hm; lia|].
        exists (p :: used). rewrite Ha, Hm in Hlen.
        split; [simpl; rewrite <- Hu; reflexivity|].
        split; [simpl length; lia | exact Hend].
      * destruct (checkConnection_give_up g p Hp Hge) as (Hs & Ht).
        rewrite Ht. exists [p]. simpl. repeat split; [lia | auto].
Qed.

Lemma connect_is_bounded_witness :
  exists used,
    [ProbeRejected; ProbeRejected; ProbeRejected; ProbeRejected; ProbeRejected] =
      used ++ snd (connect (constructed "guruji_1_abc")
                     [ProbeRejected; ProbeRejected; ProbeRejected;
                      ProbeRejected; ProbeRejected]) /\
    Z.of_nat (length used) <= 3 - 0 + 1 /\
    (snd (connect (constructed "guruji_1_abc")
            [ProbeRejected; ProbeRejected; ProbeRejected;
             ProbeRejected; ProbeRejected]) <> [] ->
     connection_state
       (fst (connect (constructed "guruji_1_abc")
               [ProbeRejected; ProbeRejected; ProbeRejected;
                ProbeRejected; ProbeRejected])) = "status-indicator connected" \/
     connection_state
       (fst (connect (constructed "guruji_1_abc")
               [ProbeRejected; ProbeRejected; ProbeRejected;
                ProbeRejected; ProbeRejected])) = "status-indicator error").
Proof.
  apply (connect_is_bounded
           [ProbeRejected; ProbeRejected; ProbeRejected; ProbeRejected; ProbeRejected]
           (constructed "guruji_1_abc")).
  discriminate.
Defined.

End SessionFacts.

(* ================================================================== *)
(** * Properties of the submitted text                              *)
(* ================================================================== *)

Module TrimFacts.
Import Js Client ClientFacts FormatFacts.
Local Open Scope list_scope.

Lemma trimStart_bytes_cut_bounded n : forall s,
  (length s <= n)%nat ->
  exists lead,
    s = lead ++ trimStart_bytes s /\ WhitespaceOnly lead /\
    starts_ws (trimStart_bytes s) = false.
Proof.
  induction n as [|n IH]; intros s Hlen.
  - destruct s; [|simpl in Hlen; lia]. exists []. repeat split. constructor.
  - destruct s as [|a r1]; [exists []; repeat split; constructor|].
    cbn [trimStart_bytes]. simpl in Hlen.
    destruct (ws1 a) eqn:E1.
    { destruct (IH r1) as (lead & Hs & Hw & Hn); [lia|].
      exists (a :: lead). split; [simpl; rewrite <- Hs; reflexivity|].
      split; [apply ws_one; assumption | exact Hn]. }
    destruct r1 as [|b r2].
    { exists []. repeat split; [constructor|]. simpl. rewrite E1. reflexivity. }
    simpl in Hlen.
    destruct (ws2 a b) eqn:E2.
    { destruct (IH r2) as (lead & Hs & Hw & Hn); [lia|].
      exists (a :: b :: lead). split; [simpl; rewrite <- Hs; reflexivity|].
      split; [apply ws_two; assumption | exact Hn]. }
    destruct r2 as [|c r3].
    { exists []. repeat split; [constructor|]. simpl. rewrite E1, E2. reflexivity. }
    simpl in Hlen.
    destruct (ws3 a b c) eqn:E3.
    { destruct (IH r3) as (lead & Hs & Hw & Hn); [lia|].
      exists (a :: b :: c :: lead). split; [simpl; rewrite <- Hs; reflexivity|].
      split; [apply ws_three; assumption | exact Hn]. }
    exists []. repeat split; [constructor|].
    cbn [starts_ws]. rewrite E1, E2, E3. reflexivity.
Qed.

Lemma trimEnd_reversed_cut_bounded n : forall s,
  (length s <= n)%nat ->
  exists trail,
    rev s = rev (trimEnd_reversed s) ++ trail /\ WhitespaceOnly trail /\
    ends_ws (rev (trimEnd_reversed s)) = false.
Proof.
  induction n as [|n IH]; intros s Hlen.
  - destruct s; [|simpl in Hlen; lia]. exists []. repeat split. constructor.
  - destruct s as [|c r1]; [exists []; repeat split; constructor|].
    cbn [trimEnd_reversed]. simpl in Hlen.
    destruct (ws1 c) eqn:E1.
    { destruct (IH r1) as (trail & Hs & Hw & Hn); [lia|].
      exists (trail ++ [c]). split; [simpl; rewrite Hs, app_assoc; reflexivity|].
      split; [|exact Hn].
      apply WhitespaceOnly_app; [exact Hw | apply ws_one; [exact E1 | constructor]]. }
    destruct r1 as [|b r2].
    { exists []. split; [rewrite app_nil_r; reflexivity|].
      split; [constructor|].
      unfold ends_ws. rewrite rev_involutive. rewrite E1. reflexivity. }
    simpl in Hlen.
    destruct (ws2 b c) eqn:E2.
    { destruct (IH r2) as (trail & Hs & Hw & Hn); [lia|].
      exists (trail ++ [b; c]).
      split; [simpl; rewrite Hs, <- !app_assoc; reflexivity|].
      split; [|exact Hn].
      apply WhitespaceOnly_app; [exact Hw | apply ws_two; [exact E2 | constructor]]. }
    destruct r2 as [|a r3].
    { exists []. split; [rewrite app_nil_r; reflexivity|].
      split; [constructor|].
      unfold ends_ws. rewrite rev_involutive. rewrite E1, E2. reflexivity. }
    simpl in Hlen.
    destruct (ws3 a b c) eqn:E3.
    { destruct (IH r3) as (trail & Hs & Hw & Hn); [lia|].
      exists (trail ++ [a; b; c]).
      split; [simpl; rewrite Hs, <- !app_assoc; reflexivity|].
      split; [|exact Hn].
      apply WhitespaceOnly_app; [exact Hw | apply ws_three; [exact E3 | constructor]]. }
    exists []. split; [rewrite app_nil_r; reflexivity|].
    split; [constructor|].
    unfold ends_ws. rewrite rev_involutive. rewrite E1, E2, E3. reflexivity.
Qed.

(** [trim] removes white space and nothing else. *)
Lemma trim_removes_outer_white_space_only s :
  exists lead trail,
    list_ascii_of_string s = lead ++ list_ascii_of_string (trim s) ++ trail /\
    WhitespaceOnly lead /\ WhitespaceOnly trail /\
    starts_ws (list_ascii_of_string (trim s)) = false /\
    ends_ws (list_ascii_of_string (trim s)) = false.
Proof.
  unfold trim. rewrite list_ascii_of_string_of_list_ascii.
  set (bytes := list_ascii_of_string s).
  destruct (trimStart_bytes_cut_bounded _ bytes (le_n _))
    as (lead & Hlead & Hwl & Hstart).
  set (t := trimStart_bytes bytes) in *.
  destruct (trimEnd_reversed_cut_bounded _ (rev t) (le_n _))
    as (trail & Htrail & Hwt & Hend).
  rewrite rev_involutive in Htrail.
  exists lead, trail. split; [rewrite <- Htrail; exact Hlead|].
  split; [exact Hwl|]. split; [exact Hwt|]. split; [|exact Hend].
  destruct (starts_ws (rev (trimEnd_reversed (rev t)))) eqn:E; [|reflexivity].
  apply (starts_ws_app _ trail) in E. rewrite <- Htrail in E. congruence.
Qed.

(** X20. The user message a submission pushes on the history is the
    input without the white space around it: the input is a run of
    white space, then the message, then a run of white space, and the
    message is not empty and neither begins nor ends with white
    space. *)
Theorem submitted_text_is_the_input_trimmed g g' request :
  handleUserMessage_begin g = (g', Some request) ->
  exists lead text trail,
    messageHistory g' =
      messageHistory g ++ [{| role := "user"; content := text |}] /\
    list_ascii_of_string (userInput_value g) =
      lead ++ list_ascii_of_string text ++ trail /\
    WhitespaceOnly lead /\ WhitespaceOnly trail /\
    text <> "" /\
    starts_ws (list_ascii_of_string text) = false /\
    ends_ws (list_ascii_of_string text) = false.
Proof.
  intros B.
  destruct (begin_inversion _ _ _ B) as [Htext Hidle].
  destruct (begin_proceeds g Htext Hidle) as (g1 & E1 & Hh & _).
  rewrite B in E1. inversion E1; subst g1; clear E1.
  destruct (trim_removes_outer_white_space_only (userInput_value g))
    as (lead & trail & Hcut & Hl & Ht & Hs & He).
  exists lead, (trim (userInput_value g)), trail.
  repeat split; assumption.
Qed.

Lemma submitted_text_is_the_input_trimmed_witness :
  exists lead text trail,
    messageHistory (fst (handleUserMessage_begin (asking "  What is dharma? "))) =
      messageHistory (asking "  What is dharma? ") ++
      [{| role := "user"; content := text |}] /\
    list_ascii_of_string (userInput_value (asking "  What is dharma? ")) =
      lead ++ list_ascii_of_string text ++ trail /\
    WhitespaceOnly lead /\ WhitespaceOnly trail /\
    text <> "" /\
    starts_ws (list_ascii_of_string text) = false /\
    ends_ws (list_ascii_of_string text) = false.
Proof.
  apply (submitted_text_is_the_input_trimmed
           (asking "  What is dharma? ")
           (fst (handleUserMessage_begin (asking "  What is dharma? ")))
           (sendToBackend_request
              (fst (handleUserMessage_begin (asking "  What is dharma? "))))).
  reflexivity.
Defined.

End TrimFacts.

(* ================================================================== *)
(** * Properties of the client and the relay together               *)
(* ================================================================== *)

Module EndToEnd.
Import Js JsFacts Relay RelayFacts Wire SessionFacts.
Local Open Scope list_scope.

(** ** A client request at the relay *)

Lemma client_message_not_system m :
  Client.client_role m -> system_role (message_json m) = false.
Proof.
  intros [H|H]; unfold message_json, system_role; simpl; rewrite H; reflexivity.
Qed.

Lemma client_messages_have_no_system msgs :
  Forall Client.client_role msgs ->
  existsb system_role (map message_json msgs) = false /\
  filter system_role (map message_json msgs) = [] /\
  Forall (fun m => nullish m = false) (map message_json msgs).
Proof.
  induction 1 as [|m msgs Hm _ (IH1 & IH2 & IH3)]; cbn [map existsb filter].
  - repeat split. constructor.
  - rewrite (client_message_not_system m Hm). cbn [orb].
    split; [exact IH1|]. split; [exact IH2|].
    constructor; [reflexivity | exact IH3].
Qed.

(** What the relay does with the body of a client request. *)
Lemma relay_takes_client_request env r :
  Forall Client.client_role (Client.request_messages r) ->
  let call := {| chatMessages := persona :: map message_json (Client.request_messages r);
                 temperature := JNum (Client.request_temperature r) |} in
  api_chat env (request_json r) =
  (Some call,
   respond (generateResponse (axios_post env call)) (random env) (now env)).
Proof.
  intros Hroles call. subst call.
  destruct (client_messages_have_no_system _ Hroles) as (Hno & _ & Hobj).
  unfold api_chat, prepare, request_json. simpl.
  rewrite (some_system_objects _ Hobj), Hno. reflexivity.
Qed.

(** X21. Every chat request the client sends is accepted by the relay
    (the reply is neither 400 nor 500): the upstream call receives the
    persona message followed by the client's messages in their order,
    eleven at most, so one system-role message in all, in first
    position, with the temperature 0.7. *)
Theorem client_requests_reach_upstream_with_persona env events g :
  Forall Client.client_role (Client.messageHistory g) ->
  Forall (fun r =>
            exists call,
              fst (api_chat env (request_json r)) = Some call /\
              chatMessages call =
                persona :: map message_json (Client.request_messages r) /\
              one_leading_system (chatMessages call) /\
              (length (chatMessages call) <= 11)%nat /\
              temperature call = JNum (7 # 10) /\
              (http_status (snd (api_chat env (request_json r))) = 200 \/
               http_status (snd (api_chat env (request_json r))) = 503))
         (Client.requests events g).
Proof.
  revert g. induction events as [|e events IH]; intros g Hroles;
    [constructor|].
  rewrite requests_cons.
  destruct (fire_keeps_roles e g Hroles) as [Hroles' _].
  specialize (IH (Client.fire e g) Hroles').
  destruct (sent_by_cases e g) as [E|(g' & B & E & F)]; rewrite E;
    [exact IH|].
  constructor; [clear IH|exact IH].
  destruct (begin_request_well_formed g g' Hroles B)
    as (Hlen & _ & Hr_roles & _ & Htemp).
  set (r := Client.sendToBackend_request g') in *. clearbody r.
  rewrite (relay_takes_client_request env r Hr_roles).
  destruct (client_messages_have_no_system _ Hr_roles) as (_ & Hfilter & _).
  eexists. split; [reflexivity|]. cbn [fst snd chatMessages temperature].
  split; [reflexivity|]. split; [|split; [|split]].
  - split.
    + change (filter system_role (persona :: ?l))
        with (persona :: filter system_role l).
      rewrite Hfilter. reflexivity.
    + eexists _, _. split; reflexivity.
  - simpl. rewrite length_map. lia.
  - rewrite Htemp. reflexivity.
  - unfold respond.
    match goal with |- context [success ?x] => destruct (success x) end;
      simpl; auto.
Qed.

Lemma client_requests_reach_upstream_with_persona_witness :
  Forall (fun r =>
            exists call,
              fst (api_chat rate_limited_env (request_json r)) = Some call /\
              chatMessages call =
                persona :: map message_json (Client.request_messages r) /\
              one_leading_system (chatMessages call) /\
              (length (chatMessages call) <= 11)%nat /\
              temperature call = JNum (7 # 10) /\
              (http_status (snd (api_chat rate_limited_env (request_json r))) = 200 \/
               http_status (snd (api_chat rate_limited_env (request_json r))) = 503))
         (Client.requests
            [Client.Welcomed; Client.Typed "What is dharma?"; Client.SendClicked]
            (Client.constructed "guruji_1_abc")).
Proof.
  apply (client_requests_reach_upstream_with_persona rate_limited_env
           [Client.Welcomed; Client.Typed "What is dharma?"; Client.SendClicked]
           (Client.constructed "guruji_1_abc")).
  constructor.
Defined.

(** ** A whole round *)

Lemma relay_fallbacks_are_not_client_texts f :
  In f fallbackResponses ->
  ~ In f Client.errorMessages /\ f <> Client.networkErrorMessage.
Proof.
  unfold fallbackResponses, Client.errorMessages, Client.networkErrorMessage.
  simpl. intros [<-|[<-|[<-|[<-|[]]]]]; split;
    try discriminate;
    intros [H|[H|[H|[H|[]]]]]; discriminate H.
Qed.

(** X22. When the upstream call fails, in any way, the client that
    sent the request shows one of the relay's four fallback phrases as
    an assistant message; its own fallback phrases and its network
    message are not used. *)
Theorem upstream_failure_shows_relay_fallback env g g' r rnd :
  Forall Client.client_role (Client.messageHistory g) ->
  Client.handleUserMessage_begin g = (g', Some r) ->
  (0 <= random env)%Q -> (random env < 1)%Q ->
  reply_success (snd (api_chat env (request_json r))) = false ->
  exists outcome f,
    relayed env r = Some outcome /\
    In f fallbackResponses /\
    ~ In f Client.errorMessages /\ f <> Client.networkErrorMessage /\
    Client.shows f g' (Client.handleUserMessage_resume outcome rnd g').
Proof.
  intros Hroles B H0 H1 Hfail.
  assert (Hr : Forall Client.client_role (Client.request_messages r)).
  { destruct (ClientFacts.begin_inversion _ _ _ B) as [Htext Hidle].
    destruct (ClientFacts.begin_proceeds g Htext Hidle) as (g1 & E1 & _).
    rewrite B in E1. inversion E1; subst g1 r.
    apply (begin_request_well_formed g g' Hroles B). }
  unfold relayed. rewrite (relay_takes_client_request env r Hr) in *.
  cbn [snd] in *. unfold respond in *.
  match goal with |- context [success ?x] => destruct (success x) end;
    [discriminate Hfail|].
  destruct (random_pick_in fallbackResponses (random env) H0 H1)
    as (f & Hpick & Hin); [discriminate|].
  pose proof (fallbackResponses_nonempty f Hin) as Hne.
  eexists _, f. split; [unfold read_reply; simpl; reflexivity|].
  split; [exact Hin|].
  destruct (relay_fallbacks_are_not_client_texts f Hin) as [Hlocal Hnet].
  split; [exact Hlocal|]. split; [exact Hnet|].
  unfold Client.handleUserMessage_resume, Client.handleUserMessage_try,
    Client.sendToBackend_settle.
  cbn [Client.data_fallback]. rewrite Hpick, (ClientFacts.present_some f Hne).
  split; reflexivity.
Qed.

Lemma upstream_failure_shows_relay_fallback_witness :
  let g := Client.asking "What is dharma?" in
  let g' := fst (Client.handleUserMessage_begin g) in
  exists outcome f,
    relayed rate_limited_env (Client.sendToBackend_request g') = Some outcome /\
    In f fallbackResponses /\
    ~ In f Client.errorMessages /\ f <> Client.networkErrorMessage /\
    Client.shows f g' (Client.handleUserMessage_resume outcome 0 g').
Proof.
  intros g g'.
  apply (upstream_failure_shows_relay_fallback rate_limited_env g g'
           (Client.sendToBackend_request g') 0).
  - constructor; [right; reflexivity | constructor].
  - reflexivity.
  - vm_compute; discriminate.
  - reflexivity.
  - reflexivity.
Defined.

(** X23. When the upstream call succeeds with a text, the client shows
    that text as an assistant message; when it succeeds with a content
    that is [null] or absent, the relay still replies 200 and the
    client shows its network message. *)
Theorem upstream_content_reaches_the_chat env g g' r rnd :
  Forall Client.client_role (Client.messageHistory g) ->
  Client.handleUserMessage_begin g = (g', Some r) ->
  let reply := snd (api_chat env (request_json r)) in
  reply_success reply = true ->
  http_status reply = 200 /\
  (forall text,
     reply_content reply = JStr text ->
     exists outcome,
       relayed env r = Some outcome /\
       Client.shows text g' (Client.handleUserMessage_resume outcome rnd g')) /\
  (reply_content reply = JNull \/ reply_content reply = JUndefined ->
   exists outcome,
     relayed env r = Some outcome /\
     Client.shows Client.networkErrorMessage g'
       (Client.handleUserMessage_resume outcome rnd g')).
Proof.
  intros Hroles B reply Hok. subst reply.
  assert (Hr : Forall Client.client_role (Client.request_messages r)).
  { destruct (ClientFacts.begin_inversion _ _ _ B) as [Htext Hidle].
    destruct (ClientFacts.begin_proceeds g Htext Hidle) as (g1 & E1 & _).
    rewrite B in E1. inversion E1; subst g1 r.
    apply (begin_request_well_formed g g' Hroles B). }
  unfold relayed. rewrite (relay_takes_client_request env r Hr) in *.
  cbn [snd] in *. unfold respond in *.
  match goal with |- context [success ?x] => destruct (success x) end;
    [|discriminate Hok].
  cbn [http_status reply_content]. split; [reflexivity|]. split.
  - intros text Htext. unfold read_reply.
    cbn [reply_content http_status reply_success reply_error reply_fallback].
    rewrite Htext. eexists. split; [reflexivity|]. split; reflexivity.
  - intros Hnone. unfold read_reply.
    cbn [reply_content http_status reply_success reply_error reply_fallback].
    destruct Hnone as [-> | ->]; (eexists; split; [reflexivity|]);
      split; reflexivity.
Qed.

Lemma upstream_content_reaches_the_chat_witness :
  let env := {| axios_post := fun _ =>
                  AxiosResolved (Some {| choices := Some [Some (JStr "Om.")];
                                         usage := JNull |});
                random := 0; now := "2024-01-01T00:00:00.000Z" |} in
  let g := Client.asking "What is dharma?" in
  let g' := fst (Client.handleUserMessage_begin g) in
  exists outcome,
    relayed env (Client.sendToBackend_request g') = Some outcome /\
    Client.shows "Om." g' (Client.handleUserMessage_resume outcome 0 g').
Proof.
  intros env g g'.
  destruct (upstream_content_reaches_the_chat env g g'
              (Client.sendToBackend_request g') 0) as (_ & Htext & _).
  - constructor; [right; reflexivity | constructor].
  - reflexivity.
  - reflexivity.
  - apply Htext. reflexivity.
Defined.

(** ** The probe at the relay *)

(** X24. The health reply reports the key as configured exactly when
    the variable holds a non-empty text, but says healthy either way:
    a probe answered by the relay always gives connected, resets the
    attempt count and schedules no retry, key or no key. *)
Theorem health_probe_connects_with_or_without_key apiKey time g :
  let reply := api_health apiKey time in
  let g' := fst (Client.checkConnection g (read_health reply)) in
  (health_deepseek_api reply = "configured" <->
   exists key, apiKey = Some key /\ key <> "") /\
  (health_deepseek_api reply = "configured" \/
   health_deepseek_api reply = "missing") /\
  Client.connection_state g' = "status-indicator connected" /\
  Client.reconnectAttempts g' = 0 /\
  snd (Client.checkConnection g (read_health reply)) = None.
Proof.
  cbn zeta. split; [|split].
  - unfold api_health; simpl. split.
    + destruct apiKey as [key|]; [|discriminate].
      destruct (String.eqb_spec key "") as [->|Hne]; [discriminate|].
      intros _. exists key. auto.
    + intros (key & -> & Hne).
      apply String.eqb_neq in Hne. rewrite Hne. reflexivity.
  - unfold api_health; simpl.
    destruct apiKey as [key|]; [destruct (key =? "")%string|]; auto.
  - repeat split.
Qed.

End EndToEnd.
